(** * Emergent-Scrapper front end: API facade, tweet browser, dashboard

    A shallow embedding of the three JavaScript sources of the front end:
    the axios facade [scraperAPI], the [TweetsList] component and the
    [Dashboard] component.  JavaScript values are an inductive type,
    Numbers are IEEE-754 binary64 ([PrimFloat.float], the same format
    as the JavaScript Number type), strings are byte strings (UTF-8),
    asynchronous handlers run in a small state-and-exception monad that
    records console output, notifications and HTTP requests. *)

From Stdlib Require Import ZArith Floats Bool List String Ascii Lia.
From Stdlib Require Import DecimalString Permutation.
Import ListNotations.
Open Scope string_scope.
Set Warnings "-inexact-float,-register-all".

(* ================================================================== *)
(** * JavaScript values and the language operations the sources use    *)
(* ================================================================== *)

Module JS.

(** A plain ("JSON-like") JavaScript value.  An object is the list of
    its own enumerable string-keyed properties in [Object.entries]
    order; each key occurs once ([wf_object]). *)
Inductive value : Type :=
| VUndefined
| VNull
| VBool (b : bool)
| VNumber (n : float)
| VString (s : string)
| VArray (items : list value)
| VObject (props : list (string * value)).

Definition object : Type := list (string * value).

Definition keys (o : object) : list string := map fst o.

Definition wf_object (o : object) : Prop := NoDup (keys o).

(** [o[k]] / [o.k] on an object: the property value, [undefined] when
    the object has no such property. *)
Fixpoint get (k : string) (o : object) : value :=
  match o with
  | [] => VUndefined
  | (k', v) :: rest => if String.eqb k k' then v else get k rest
  end.

Fixpoint has_key (k : string) (o : object) : bool :=
  match o with
  | [] => false
  | (k', _) :: rest => String.eqb k k' || has_key k rest
  end.

(** Defining a property: an existing key keeps its position, a new key
    goes last (the order of [Object.entries] for keys that are not
    array indices; the sources use no index keys). *)
Fixpoint set (k : string) (v : value) (o : object) : object :=
  match o with
  | [] => [(k, v)]
  | (k', v') :: rest =>
      if String.eqb k k' then (k', v) :: rest else (k', v') :: set k v rest
  end.

(** [v?.k]: [undefined] on [null]/[undefined], the property on an
    object, [undefined] on the other values of this model (they have
    no own property called [k]; the only names the sources read this
    way are data fields). *)
Definition opt_get (v : value) (k : string) : value :=
  match v with
  | VObject o => get k o
  | _ => VUndefined
  end.

(** ToBoolean. *)
Definition truthy (v : value) : bool :=
  match v with
  | VUndefined | VNull => false
  | VBool b => b
  | VNumber n => negb (PrimFloat.eqb n 0 || PrimFloat.is_nan n)
  | VString s => negb (String.eqb s "")
  | VArray _ | VObject _ => true
  end.

(** The three strict comparisons [getTweets] makes. *)
Definition is_undefined (v : value) : bool :=
  match v with VUndefined => true | _ => false end.

Definition is_null (v : value) : bool :=
  match v with VNull => true | _ => false end.

Definition is_empty_string (v : value) : bool :=
  match v with VString s => String.eqb s "" | _ => false end.

(** The JavaScript engine.  Two conversions are taken from the engine
    as they are: the digits Number::toString produces for a value that
    is not a safe integer (shortest round-trip digit generation), and
    StringToNumber (the numeric-literal grammar). *)
Class Engine : Type := {
  digits_of_number : float -> string;
  string_to_number : string -> float
}.

Definition decimal_of_pos (p : positive) : string :=
  NilEmpty.string_of_uint (Pos.to_uint p).

Section WithEngine.
Context {engine : Engine}.

(** Number::toString (radix 10): NaN, zeros, infinities and the
    integers of magnitude below 2^53 as ECMA-262 prints them, the
    other values through the engine. *)
Definition NumberToString (n : float) : string :=
  match Prim2SF n with
  | S754_nan => "NaN"
  | S754_zero _ => "0"
  | S754_infinity false => "Infinity"
  | S754_infinity true => "-Infinity"
  | S754_finite sign m e =>
      if ((e <=? 0) && (Z.pos m mod 2 ^ (- e) =? 0))%Z then
        match (Z.pos m / 2 ^ (- e))%Z with
        | Z.pos p => (if sign then "-" else "") ++ decimal_of_pos p
        | _ => digits_of_number n
        end
      else digits_of_number n
  end.

Definition join (sep : string) (parts : list string) : string :=
  match parts with
  | [] => ""
  | p :: ps => fold_left (fun acc q => acc ++ sep ++ q) ps p
  end.

(** ToString.  Arrays print as [join(",")] with [null] and [undefined]
    elements empty, plain objects as "[object Object]". *)
Fixpoint ToString (v : value) : string :=
  match v with
  | VUndefined => "undefined"
  | VNull => "null"
  | VBool true => "true"
  | VBool false => "false"
  | VNumber n => NumberToString n
  | VString s => s
  | VArray items =>
      join ","
        (map (fun x => match x with
                       | VUndefined | VNull => ""
                       | _ => ToString x
                       end) items)
  | VObject _ => "[object Object]"
  end.

(** ToPrimitive: arrays and plain objects become their string. *)
Definition ToPrimitive (v : value) : value :=
  match v with
  | VArray _ | VObject _ => VString (ToString v)
  | _ => v
  end.

(** ToNumber. *)
Definition ToNumber (v : value) : float :=
  match ToPrimitive v with
  | VUndefined => PrimFloat.nan
  | VNull => 0%float
  | VBool true => 1%float
  | VBool false => 0%float
  | VNumber n => n
  | VString s => string_to_number s
  | VArray _ | VObject _ => PrimFloat.nan
  end.

(** The binary [+]: concatenation as soon as one side is a string,
    Number addition otherwise. *)
Definition add (x y : value) : value :=
  let px := ToPrimitive x in
  let py := ToPrimitive y in
  match px, py with
  | VString _, _ | _, VString _ => VString (ToString px ++ ToString py)
  | _, _ => VNumber (ToNumber px + ToNumber py)%float
  end.

(** [n >= v] with a Number on the left: the right side is converted
    to a Number; the test is false as soon as a NaN is involved. *)
Definition Number_ge (n : float) (v : value) : bool :=
  (ToNumber v <=? n)%float.

End WithEngine.

(** The Number of an array length. *)
Definition Number_of_nat (n : nat) : float :=
  PrimFloat.of_uint63 (Uint63.of_Z (Z.of_nat n)).

End JS.

(* ================================================================== *)
(** * Asynchronous handlers: state, exceptions, observable effects     *)
(* ================================================================== *)

Module Async.

Import JS.

(** The error axios rejects with: a message and, when the server
    answered, the body of the answer. *)
Record error : Type := mkError {
  message : string;
  response_data : option value
}.

(** The settled state of a promise, or the way a block of statements
    ends: normally with a value, or by throwing. *)
Inductive outcome (A : Type) : Type :=
| Resolved (a : A)
| Rejected (e : error).
Arguments Resolved {A} a.
Arguments Rejected {A} e.

Inductive log_arg : Type :=
| LogValue (v : value)
| LogError (e : error).

Inductive method : Type := GET | POST.

(** What a handler does to the outside, in the order it does it. *)
Inductive event : Type :=
| ConsoleLog (msg : string)
| ConsoleError (label : string) (arg : log_arg)
| Http (m : method) (url : string) (body : option value)
| ToastLoading (msg : string)
| ToastSuccess (msg : string)
| ToastError (msg : string)
| SetTimeout (ms : Z).

Section Monad.
(** [R] is the state of the remote server, [S] the component state. *)
Context {R S : Type}.

Record world : Type := mkWorld {
  view : S;
  trace : list event;
  remote : R
}.

Definition M (A : Type) : Type := world -> outcome A * world.

Definition ret {A} (a : A) : M A := fun w => (Resolved a, w).

Definition bind {A B} (m : M A) (f : A -> M B) : M B :=
  fun w =>
    match m w with
    | (Resolved a, w') => f a w'
    | (Rejected e, w') => (Rejected e, w')
    end.

Definition throw {A} (e : error) : M A := fun w => (Rejected e, w).

(** [try { m } catch (e) { h e }], also [promise.catch(h)]. *)
Definition try_catch {A} (m : M A) (h : error -> M A) : M A :=
  fun w =>
    match m w with
    | (Resolved a, w') => (Resolved a, w')
    | (Rejected e, w') => h e w'
    end.

(** [try { m } finally { f }]. *)
Definition finally {A} (m : M A) (f : M unit) : M A :=
  fun w =>
    match m w with
    | (r, w') =>
        match f w' with
        | (Resolved _, w'') => (r, w'')
        | (Rejected e, w'') => (Rejected e, w'')
        end
    end.

Definition emit (ev : event) : M unit :=
  fun w => (Resolved tt, mkWorld (view w) (trace w ++ [ev])%list (remote w)).

(** The state the component rendered with. *)
Definition read : M S := fun w => (Resolved (view w), w).

(** A state setter, plain or functional. *)
Definition update (f : S -> S) : M unit :=
  fun w => (Resolved tt, mkWorld (f (view w)) (trace w) (remote w)).

(** A promise of an HTTP call that nobody awaits yet.  The event loop
    gives it three moments: the microtask of the request interceptor
    ([announce]); the microtask in which the request leaves
    ([dispatch]), where the answer of the server is decided and what
    will run at its arrival is returned; and that arrival, when the
    response interceptor and the handlers chained on the promise
    run. *)
Record promise (A : Type) : Type := mkPromise {
  announce : M unit;
  dispatch : M (M A)
}.
Arguments mkPromise {A} announce dispatch.
Arguments announce {A} p.
Arguments dispatch {A} p.

(** [await p] of a promise that is alone in flight. *)
Definition await {A} (p : promise A) : M A :=
  bind (announce p) (fun _ => bind (dispatch p) (fun arrival => arrival)).

(** [p.catch(h)]. *)
Definition catch {A} (p : promise A) (h : error -> M A) : promise A :=
  mkPromise (announce p)
    (bind (dispatch p) (fun arrival => ret (try_catch arrival h))).

(** The arrivals of four answers, taken in the order the requests
    were sent: each runs whatever the others do, and the whole
    rejects with the first rejection. *)
Definition arrive4 {A B C D} (ma : M A) (mb : M B) (mc : M C) (md : M D)
  : M (A * B * C * D) :=
  fun w =>
    let (ra, w1) := ma w in
    let (rb, w2) := mb w1 in
    let (rc, w3) := mc w2 in
    let (rd, w4) := md w3 in
    match ra, rb, rc, rd with
    | Resolved a, Resolved b, Resolved c, Resolved d => (Resolved (a, b, c, d), w4)
    | Rejected e, _, _, _ => (Rejected e, w4)
    | _, Rejected e, _, _ => (Rejected e, w4)
    | _, _, Rejected e, _ => (Rejected e, w4)
    | _, _, _, Rejected e => (Rejected e, w4)
    end.

(** [await Promise.all([pa, pb, pc, pd])] of four promises created in
    the same turn: the four request interceptors run first, then the
    four requests leave, then the answers arrive. *)
Definition Promise_all4 {A B C D}
    (pa : promise A) (pb : promise B) (pc : promise C) (pd : promise D)
  : M (A * B * C * D) :=
  bind (announce pa) (fun _ =>
  bind (announce pb) (fun _ =>
  bind (announce pc) (fun _ =>
  bind (announce pd) (fun _ =>
  bind (dispatch pa) (fun arrival_a =>
  bind (dispatch pb) (fun arrival_b =>
  bind (dispatch pc) (fun arrival_c =>
  bind (dispatch pd) (fun arrival_d =>
  arrive4 arrival_a arrival_b arrival_c arrival_d)))))))).

(** An [async] function called without [await]: its statements up to
    the first [await] run at once; the rest is handed to the event
    loop, here as the value of the call. *)
Definition unawaited (until_await : M unit) (rest : M unit) : M (M unit) :=
  bind until_await (fun _ => ret rest).

End Monad.

Arguments world : clear implicits.
Arguments M : clear implicits.
Arguments promise : clear implicits.
Arguments mkPromise {R S A} announce dispatch.
Arguments announce {R S A} p.
Arguments dispatch {R S A} p.

Declare Scope async_scope.
Delimit Scope async_scope with async.
Notation "x <- m ;; k" := (bind m (fun x => k))
  (at level 61, m at next level, right associativity) : async_scope.
Notation "m ;; k" := (bind m (fun _ => k))
  (at level 61, right associativity) : async_scope.

End Async.

(* ================================================================== *)
(** * Backend records the client displays                              *)
(* ================================================================== *)

Module Tweet.

Record media_features : Type := mkMedia {
  has_media : bool;
  is_thread : bool
}.

Record tweet_data : Type := mkTweetData {
  author : string;
  text : string;
  created_at : string;
  url : option string;
  media : media_features
}.

(** [categories] and [key_insights] may be missing from the group
    ([None]); the card tests them before use. *)
Record ai_analysis : Type := mkAnalysis {
  sentiment_label : string;
  quality_score : float;
  engagement_prediction : float;
  topic : string;
  categories : option (list string);
  key_insights : option (list string);
  intent : string;
  entities : list string
}.

Record tweet : Type := mkTweet {
  id : JS.value;
  data : tweet_data;
  analysis : option ai_analysis
}.

End Tweet.

(* ================================================================== *)
(** * application/x-www-form-urlencoded, as [URLSearchParams] does it  *)
(* ================================================================== *)

Module URL.

Definition URLSearchParams : Type := list (string * string).

(** [append(name, value)]. *)
Definition append (qp : URLSearchParams) (name value : string) : URLSearchParams :=
  (qp ++ [(name, value)])%list.

(** Bytes that are written as they are: ASCII alphanumerics and
    [*-._]. *)
Definition is_plain (c : ascii) : bool :=
  let n := N_of_ascii c in
  ((n =? 42) || (n =? 45) || (n =? 46) || (n =? 95)
   || ((48 <=? n) && (n <=? 57))
   || ((65 <=? n) && (n <=? 90))
   || ((97 <=? n) && (n <=? 122)))%N.

Definition hex_digit (n : N) : ascii :=
  if (n <? 10)%N then ascii_of_N (48 + n) else ascii_of_N (55 + n).

Definition percent_encode (c : ascii) : string :=
  let n := N_of_ascii c in
  String "%" (String (hex_digit (n / 16)) (String (hex_digit (n mod 16)) "")).

Definition encode_byte (c : ascii) : string :=
  if Ascii.eqb c " " then "+"
  else if is_plain c then String c ""
  else percent_encode c.

Fixpoint urlencode (s : string) : string :=
  match s with
  | EmptyString => EmptyString
  | String c rest => encode_byte c ++ urlencode rest
  end.

(** [toString()]: the tuples as [name=value], joined with [&]. *)
Definition serialize (qp : URLSearchParams) : string :=
  fold_left
    (fun output '(name, value) =>
       (if String.eqb output "" then output else output ++ "&")
       ++ urlencode name ++ "=" ++ urlencode value)
    qp "".

(** The reading side (what a server, or [new URLSearchParams(text)],
    recovers from the text): split at [&], drop empty pieces, split
    each at its first [=], turn [+] into a space, percent-decode. *)
Fixpoint split (sep : ascii) (s : string) : list string :=
  match s with
  | EmptyString => [EmptyString]
  | String c rest =>
      if Ascii.eqb c sep then EmptyString :: split sep rest
      else match split sep rest with
           | [] => [String c EmptyString]
           | piece :: pieces => String c piece :: pieces
           end
  end.

Fixpoint cut (sep : ascii) (s : string) : string * string :=
  match s with
  | EmptyString => (EmptyString, EmptyString)
  | String c rest =>
      if Ascii.eqb c sep then (EmptyString, rest)
      else let (before, after) := cut sep rest in (String c before, after)
  end.

Definition hex_value (c : ascii) : option N :=
  let n := N_of_ascii c in
  if ((48 <=? n) && (n <=? 57))%N then Some (n - 48)%N
  else if ((65 <=? n) && (n <=? 70))%N then Some (n - 55)%N
  else if ((97 <=? n) && (n <=? 102))%N then Some (n - 87)%N
  else None.

Fixpoint plus_to_space (s : string) : string :=
  match s with
  | EmptyString => EmptyString
  | String c rest =>
      String (if Ascii.eqb c "+" then " "%char else c) (plus_to_space rest)
  end.

Fixpoint percent_decode (s : string) : string :=
  match s with
  | EmptyString => EmptyString
  | String c rest =>
      if Ascii.eqb c "%" then
        match rest with
        | String h (String l rest') =>
            match hex_value h, hex_value l with
            | Some a, Some b =>
                String (ascii_of_N (16 * a + b)) (percent_decode rest')
            | _, _ => String c (percent_decode rest)
            end
        | _ => String c (percent_decode rest)
        end
      else String c (percent_decode rest)
  end.

Definition urldecode (s : string) : string := percent_decode (plus_to_space s).

Definition parse (text : string) : URLSearchParams :=
  map (fun piece => let (name, value) := cut "=" piece in
                    (urldecode name, urldecode value))
      (filter (fun piece => negb (String.eqb piece "")) (split "&" text)).

End URL.

(* ================================================================== *)
(** * The API facade ([scraperAPI])                                    *)
(* ================================================================== *)

Module Api.

Import JS Async.

(** One constructor per operation of the facade, with the arguments
    that reach the request. *)
Inductive api_call : Type :=
| RunScraping
| GetSessions (limit : value)
| GetSession (sessionId : value)
| GetTweets (query : string)
| SearchTweets (searchParams : value)
| GetTweet (tweetId : value)
| GetAnalytics
| GetConfig
| UpdateConfig (config : value)
| StartScheduler
| StopScheduler
| GetSchedulerStatus
| HealthCheck.

(** The body a successful answer carries: tweet records for the list
    operation, a JSON value for the others. *)
Definition payload (c : api_call) : Type :=
  match c with
  | GetTweets _ => list Tweet.tweet
  | _ => value
  end.

Record response (A : Type) : Type := mkResponse { data : A }.
Arguments mkResponse {A} data.
Arguments data {A} r.

(** The remote server: any state, any answers. *)
Class Backend : Type := {
  server : Type;
  serve : forall c : api_call, server -> outcome (response (payload c)) * server
}.

Definition method_of (c : api_call) : method :=
  match c with
  | RunScraping | SearchTweets _ | UpdateConfig _
  | StartScheduler | StopScheduler => POST
  | _ => GET
  end.

Definition body_of (c : api_call) : option value :=
  match c with
  | SearchTweets searchParams => Some searchParams
  | UpdateConfig config => Some config
  | _ => None
  end.

Definition method_name (m : method) : string :=
  match m with GET => "GET" | POST => "POST" end.

Section Facade.
Context {engine : Engine} {backend : Backend} {S : Type}.

Local Open Scope async_scope.

Definition url_of (c : api_call) : string :=
  match c with
  | RunScraping => "/scraper/run"
  | GetSessions limit => "/scraper/sessions?limit=" ++ ToString limit
  | GetSession sessionId => "/scraper/session/" ++ ToString sessionId
  | GetTweets query => "/tweets?" ++ query
  | SearchTweets _ => "/tweets/search"
  | GetTweet tweetId => "/tweets/" ++ ToString tweetId
  | GetAnalytics => "/analytics"
  | GetConfig | UpdateConfig _ => "/config"
  | StartScheduler => "/scheduler/start"
  | StopScheduler => "/scheduler/stop"
  | GetSchedulerStatus => "/scheduler/status"
  | HealthCheck => "/"
  end.

(** What the response interceptor prints:
    [error.response?.data || error.message]. *)
Definition error_detail (e : error) : value :=
  match response_data e with
  | Some d => if truthy d then d else VString (message e)
  | None => VString (message e)
  end.

(** [api.get] / [api.post] through the two interceptors: the request
    is logged and sent; a failure is logged and passed on unchanged. *)
Definition request (c : api_call) : M server S (response (payload c)) :=
  emit (ConsoleLog ("Making " ++ method_name (method_of c)
                    ++ " request to " ++ url_of c)) ;;
  emit (Http (method_of c) (url_of c) (body_of c)) ;;
  fun w =>
    match serve c (remote w) with
    | (Resolved r, srv) => (Resolved r, mkWorld (view w) (trace w) srv)
    | (Rejected e, srv) =>
        (emit (ConsoleError "API Error:" (LogValue (error_detail e))) ;;
         throw e) (mkWorld (view w) (trace w) srv)
    end.

(** The same call as a promise that is not awaited yet. *)
Definition arrived (c : api_call) (r : outcome (response (payload c)))
  : M server S (response (payload c)) :=
  match r with
  | Resolved x => ret x
  | Rejected e =>
      emit (ConsoleError "API Error:" (LogValue (error_detail e))) ;;
      throw e
  end.

Definition started (c : api_call) : promise server S (response (payload c)) :=
  mkPromise
    (emit (ConsoleLog ("Making " ++ method_name (method_of c)
                       ++ " request to " ++ url_of c)))
    (emit (Http (method_of c) (url_of c) (body_of c)) ;;
     fun w =>
       match serve c (remote w) with
       | (r, srv) => (Resolved (arrived c r), mkWorld (view w) (trace w) srv)
       end).

(** The call [getSessions(limit)] makes. *)
Definition sessions_call (limit : value) : api_call :=
  GetSessions (if is_undefined limit then VNumber 10 else limit).

Definition runScraping := request RunScraping.

(** [limit = 10]: the default replaces a missing ([undefined])
    argument. *)
Definition getSessions (limit : value) :=
  request (GetSessions (if is_undefined limit then VNumber 10 else limit)).

Definition getSession (sessionId : value) := request (GetSession sessionId).

(** The [forEach] of [getTweets]: a value other than [undefined],
    [null] and [''] is appended under its key. *)
Definition add_param (queryParams : URL.URLSearchParams) (entry : string * value)
  : URL.URLSearchParams :=
  let (key, value) := entry in
  if negb (is_undefined value) && negb (is_null value)
     && negb (is_empty_string value)
  then URL.append queryParams key (ToString value)
  else queryParams.

Definition tweets_queryParams (params : object) : URL.URLSearchParams :=
  fold_left add_param params [].

Definition tweets_query (params : object) : string :=
  URL.serialize (tweets_queryParams params).

(** [params = {}]: [None] is a call without argument. *)
Definition getTweets (params : option object) :=
  request (GetTweets (tweets_query (match params with
                                    | Some o => o
                                    | None => []
                                    end))).

Definition searchTweets (searchParams : value) := request (SearchTweets searchParams).
Definition getTweet (tweetId : value) := request (GetTweet tweetId).
Definition getAnalytics := request GetAnalytics.
Definition getConfig := request GetConfig.
Definition updateConfig (config : value) := request (UpdateConfig config).
Definition startScheduler := request StartScheduler.
Definition stopScheduler := request StopScheduler.
Definition getSchedulerStatus := request GetSchedulerStatus.
Definition healthCheck := request HealthCheck.

End Facade.

End Api.

(* ================================================================== *)
(** * The tweet browser ([TweetsList])                                 *)
(* ================================================================== *)

Module TweetsList.

Import JS Async Api.

Record state : Type := mkState {
  tweets : list Tweet.tweet;
  loading : bool;
  filters : object;
  selectedTweet : option Tweet.tweet
}.

Definition initial_filters : object :=
  [ ("query", VString ""); ("author", VString ""); ("category", VString "");
    ("sentiment", VString ""); ("has_media", VNull); ("is_thread", VNull);
    ("min_quality_score", VNull); ("limit", VNumber 20); ("offset", VNumber 0) ].

Definition initial : state := mkState [] true initial_filters None.

Definition with_tweets (x : list Tweet.tweet) (st : state) : state :=
  mkState x (loading st) (filters st) (selectedTweet st).
Definition with_loading (x : bool) (st : state) : state :=
  mkState (tweets st) x (filters st) (selectedTweet st).
Definition with_filters (x : object) (st : state) : state :=
  mkState (tweets st) (loading st) x (selectedTweet st).
Definition with_selectedTweet (x : option Tweet.tweet) (st : state) : state :=
  mkState (tweets st) (loading st) (filters st) x.

(** The two constant class strings of the colour helpers. *)
Definition green : string := "text-green-600 bg-green-100".
Definition yellow : string := "text-yellow-600 bg-yellow-100".
Definition red : string := "text-red-600 bg-red-100".

Definition getQualityColor (score : float) : string :=
  if (0.8 <=? score)%float then green
  else if (0.6 <=? score)%float then yellow
  else red.

(** [list.slice(0, n)]. *)
Definition slice0 {A} (n : nat) (l : list A) : list A := firstn n l.

(** What a card shows of the categories: nothing when the list is
    missing or empty, its first three entries otherwise. *)
Definition card_categories (a : Tweet.ai_analysis) : option (list string) :=
  match Tweet.categories a with
  | Some cats => if (0 <? List.length cats)%nat then Some (slice0 3 cats) else None
  | None => None
  end.

Definition card_key_insights (a : Tweet.ai_analysis) : option (list string) :=
  match Tweet.key_insights a with
  | Some ins => if (0 <? List.length ins)%nat then Some (slice0 2 ins) else None
  | None => None
  end.

Record analysis_view : Type := mkAnalysisView {
  shown_sentiment : string;
  shown_quality_class : string;
  shown_topic : option string;
  shown_categories : option (list string);
  shown_key_insights : option (list string)
}.

Record card : Type := mkCard {
  shown_author : string;
  shown_text : string;
  shown_link : option string;
  shown_badges : list string;
  shown_analysis : option analysis_view
}.

Definition TweetCard (tweet : Tweet.tweet) : card :=
  let d := Tweet.data tweet in
  let m := Tweet.media d in
  mkCard
    (Tweet.author d)
    (Tweet.text d)
    (match Tweet.url d with
     | Some u => if String.eqb u "" then None else Some u
     | None => None
     end)
    ((if Tweet.has_media m then ["Media"] else [])
     ++ (if Tweet.is_thread m then ["Thread"] else []))%list
    (match Tweet.analysis tweet with
     | Some a =>
         Some (mkAnalysisView
                 (Tweet.sentiment_label a)
                 (getQualityColor (Tweet.quality_score a))
                 (if String.eqb (Tweet.topic a) "" then None
                  else Some (Tweet.topic a))
                 (card_categories a)
                 (card_key_insights a))
     | None => None
     end).

(** The detail overlay reads the two lists without a test; a missing
    list makes the render throw ([None]). *)
Record detail : Type := mkDetail {
  detail_topic : string;
  detail_intent : string;
  detail_categories : string;
  detail_entities : string;
  detail_key_insights : list string
}.

Definition Modal_analysis (a : Tweet.ai_analysis) : option detail :=
  match Tweet.categories a, Tweet.key_insights a with
  | Some cats, Some ins =>
      Some (mkDetail (Tweet.topic a) (Tweet.intent a)
              (join ", " cats) (join ", " (Tweet.entities a)) ins)
  | _, _ => None
  end.

Section Component.
Context {engine : Engine} {backend : Backend}.

Local Open Scope async_scope.

Definition setTweets (x : list Tweet.tweet) : M server state unit :=
  update (with_tweets x).
Definition setLoading (x : bool) : M server state unit :=
  update (with_loading x).
Definition setFilters (f : object -> object) : M server state unit :=
  update (fun st => with_filters (f (filters st)) st).
Definition setSelectedTweet (x : option Tweet.tweet) : M server state unit :=
  update (with_selectedTweet x).

Definition fetchTweets : M server state unit :=
  st <- read ;;
  finally
    (try_catch
       (setLoading true ;;
        response <- getTweets (Some (filters st)) ;;
        setTweets (data response))
       (fun error =>
          emit (ConsoleError "Error fetching tweets:" (LogError error)) ;;
          emit (ToastError "Failed to load tweets")))
    (setLoading false).

(** [{...prev, [key]: value, offset: 0}]. *)
Definition filter_change (key : string) (value : value) (prev : object) : object :=
  set "offset" (VNumber 0) (set key value prev).

Definition handleFilterChange (key : string) (value : value) : M server state unit :=
  setFilters (filter_change key value).

(** [{...prev, offset: prev.offset + prev.limit}]. *)
Definition load_more (prev : object) : object :=
  set "offset" (add (get "offset" prev) (get "limit" prev)) prev.

Definition handleLoadMore : M server state unit :=
  setFilters load_more.

(** The effect with dependency [[filters]]: a handler that replaces
    the filters is followed by a fetch with the new filters. *)
Definition then_effect (handler : M server state unit) : M server state unit :=
  handler ;; fetchTweets.

(** [tweets.length > 0 && tweets.length >= filters.limit]. *)
Definition show_load_more (st : state) : bool :=
  (0 <? List.length (tweets st))%nat
  && Number_ge (Number_of_nat (List.length (tweets st))) (get "limit" (filters st)).

End Component.

End TweetsList.

(* ================================================================== *)
(** * The operations dashboard ([Dashboard])                           *)
(* ================================================================== *)

Module Dashboard.

Import JS Async Api.

Record state : Type := mkState {
  analytics : value;
  schedulerStatus : value;
  sessions : value;
  loading : bool;
  config : value
}.

Definition initial : state := mkState VNull VNull (VArray []) true VNull.

Definition with_analytics (x : value) (st : state) : state :=
  mkState x (schedulerStatus st) (sessions st) (loading st) (config st).
Definition with_schedulerStatus (x : value) (st : state) : state :=
  mkState (analytics st) x (sessions st) (loading st) (config st).
Definition with_sessions (x : value) (st : state) : state :=
  mkState (analytics st) (schedulerStatus st) x (loading st) (config st).
Definition with_loading (x : bool) (st : state) : state :=
  mkState (analytics st) (schedulerStatus st) (sessions st) x (config st).
Definition with_config (x : value) (st : state) : state :=
  mkState (analytics st) (schedulerStatus st) (sessions st) (loading st) x.

(** [schedulerStatus?.running], as a condition. *)
Definition scheduler_running (st : state) : bool :=
  truthy (opt_get (schedulerStatus st) "running").

(** The text of the scheduler stat card and of the toggle button. *)
Definition scheduler_card (st : state) : string :=
  if scheduler_running st then "Running" else "Stopped".

Definition toggle_label (st : state) : string :=
  if scheduler_running st then "Stop Scheduler" else "Start Scheduler".

Section Component.
Context {engine : Engine} {backend : Backend}.

Local Open Scope async_scope.

Definition setAnalytics (x : value) : M server state unit :=
  update (with_analytics x).
Definition setSchedulerStatus (x : value) : M server state unit :=
  update (with_schedulerStatus x).
Definition setSessions (x : value) : M server state unit :=
  update (with_sessions x).
Definition setLoading (x : bool) : M server state unit :=
  update (with_loading x).
Definition setConfig (x : value) : M server state unit :=
  update (with_config x).

(** [promise.catch(() => ({ data: fallback }))]. *)
Definition or_data (p : promise server state (response value)) (fallback : value)
  : promise server state (response value) :=
  catch p (fun _ => ret (mkResponse fallback)).

(** The [await Promise.all([...])] of [fetchDashboardData] and the
    four setters after it. *)
Definition store_answers : M server state unit :=
  res <- Promise_all4
           (or_data (started GetAnalytics) (VObject []))
           (or_data (started GetSchedulerStatus) (VObject []))
           (or_data (started (sessions_call (VNumber 5))) (VArray []))
           (or_data (started GetConfig) (VObject [])) ;;
  let '(analyticsRes, schedulerRes, sessionsRes, configRes) := res in
  setAnalytics (data analyticsRes) ;;
  setSchedulerStatus (data schedulerRes) ;;
  setSessions (data sessionsRes) ;;
  setConfig (data configRes).

(** Its [catch] block. *)
Definition report_failure (error : error) : M server state unit :=
  emit (ConsoleError "Error fetching dashboard data:" (LogError error)) ;;
  emit (ToastError "Failed to load dashboard data").

(** [fetchDashboardData], run to its end. *)
Definition fetchDashboardData : M server state unit :=
  finally
    (try_catch (setLoading true ;; store_answers) report_failure)
    (setLoading false).

(** [fetchDashboardData()] without [await]: [setLoading(true)] runs
    at once; what follows, from the [await] on and under the same
    [catch] and [finally], is left in flight. *)
Definition fetchDashboardData_in_flight : M server state unit :=
  finally (try_catch store_answers report_failure) (setLoading false).

Definition fetchDashboardData_unawaited : M server state (M server state unit) :=
  unawaited (setLoading true) fetchDashboardData_in_flight.


(** The handler settles with what it left in flight: the dashboard
    fetch it started ([Some]), or nothing ([None]). *)
Definition handleToggleScheduler
  : M server state (option (M server state unit)) :=
  st <- read ;;
  try_catch
    ((if scheduler_running st then
        _ <- stopScheduler ;;
        emit (ToastSuccess "Scheduler stopped")
      else
        _ <- startScheduler ;;
        emit (ToastSuccess "Scheduler started")) ;;
     in_flight <- fetchDashboardData_unawaited ;;
     ret (Some in_flight))
    (fun error =>
       emit (ConsoleError "Error toggling scheduler:" (LogError error)) ;;
       emit (ToastError "Failed to toggle scheduler") ;;
       ret None).

End Component.

End Dashboard.

(* ================================================================== *)
(** * Concrete engines, servers and records for the examples           *)
(* ================================================================== *)

Module Scenario.

Import JS Async Api.

(** An engine for runs that only print safe integers and never parse a
    string as a Number. *)
Definition plain_engine : Engine :=
  {| digits_of_number := fun _ => "NaN";
     string_to_number := fun _ => PrimFloat.nan |}.

Definition alice : Tweet.tweet :=
  Tweet.mkTweet (VNumber 1)
    (Tweet.mkTweetData "alice" "hello" "2024-01-01T00:00:00Z" None
       (Tweet.mkMedia false false))
    None.

Definition bob_analysis : Tweet.ai_analysis :=
  Tweet.mkAnalysis "positive" 0.85 0.5 "proofs"
    (Some ["a"; "b"; "c"; "d"]) (Some ["i1"; "i2"; "i3"])
    "inform" ["Rocq"].

Definition bob : Tweet.tweet :=
  Tweet.mkTweet (VNumber 2)
    (Tweet.mkTweetData "bob" "thread on proofs" "2024-01-02T00:00:00Z"
       (Some "https://x.example/2") (Tweet.mkMedia true true))
    (Some bob_analysis).

Definition timeout_error : error := mkError "timeout of 30000ms exceeded" None.

(** What the server of the examples answers when it answers; its
    state is whether the scheduler runs. *)
Definition answer (c : api_call) (running : bool) : response (payload c) :=
  match c as c0 return response (payload c0) with
  | GetTweets _ => mkResponse [alice; bob]
  | GetSchedulerStatus => mkResponse (VObject [("running", VBool running)])
  | GetSessions _ =>
      mkResponse
        (VArray [VObject [("id", VNumber 7); ("tweets_processed", VNumber 12);
                          ("started_at", VString "2024-01-01T10:00:00Z");
                          ("status", VString "completed")]])
  | GetAnalytics => mkResponse (VObject [("total_tweets", VNumber 2)])
  | GetConfig => mkResponse (VObject [("batch_size", VNumber 50)])
  | RunScraping | GetSession _ | SearchTweets _ | GetTweet _
  | UpdateConfig _ | StartScheduler | StopScheduler | HealthCheck =>
      mkResponse (VObject [])
  end.

(** A server on which the calls selected by [down] time out; start
    and stop switch the scheduler when they get through. *)
Definition backend (down : api_call -> bool) : Backend :=
  {| server := bool;
     serve := fun c running =>
       if down c then (Rejected timeout_error, running)
       else (Resolved (answer c running),
             match c with
             | StartScheduler => true
             | StopScheduler => false
             | _ => running
             end) |}.

(** The filters of the browser after an author was typed in. *)
Definition author_typed : object :=
  [ ("query", VString ""); ("author", VString "bob smith");
    ("category", VString ""); ("sentiment", VString "");
    ("has_media", VNull); ("is_thread", VNull);
    ("min_quality_score", VNull); ("limit", VNumber 20);
    ("offset", VNumber 0) ].

Definition all_up : api_call -> bool := fun _ => false.
Definition analytics_down (c : api_call) : bool :=
  match c with GetAnalytics => true | _ => false end.
Definition status_down (c : api_call) : bool :=
  match c with GetSchedulerStatus => true | _ => false end.
Definition stop_down (c : api_call) : bool :=
  match c with StopScheduler => true | _ => false end.
Definition tweets_down (c : api_call) : bool :=
  match c with GetTweets _ => true | _ => false end.

Definition up : Backend := backend all_up.

(** The browser showing one tweet, not loading, with the initial
    filters; the scheduler of the server is stopped. *)
Definition browsing : world bool TweetsList.state :=
  mkWorld (TweetsList.mkState [alice] false TweetsList.initial_filters None)
          [] false.

(** The dashboard as it is mounted, the scheduler running. *)
Definition mounted : world bool Dashboard.state :=
  mkWorld Dashboard.initial [] true.

(** The dashboard after a fetch that found the scheduler running. *)
Definition running_view : Dashboard.state :=
  Dashboard.mkState (VObject [("total_tweets", VNumber 2)])
    (VObject [("running", VBool true)]) (VArray []) false (VObject []).

Definition watching : world bool Dashboard.state :=
  mkWorld running_view [] true.

End Scenario.

(* ================================================================== *)
(** * Vocabulary of the statements                                     *)
(* ================================================================== *)

Module Observed.

Import JS Async Api.

(** [occurs c s]: the byte [c] is somewhere in [s]. *)
Fixpoint occurs (c : ascii) (s : string) : bool :=
  match s with
  | EmptyString => false
  | String x rest => Ascii.eqb x c || occurs c rest
  end.

(** The text of one tuple, and of a list of tuples after the first. *)
Definition pair_text (p : string * string) : string :=
  URL.urlencode (fst p) ++ "=" ++ URL.urlencode (snd p).

Fixpoint more_text (qp : URL.URLSearchParams) : string :=
  match qp with
  | [] => ""
  | p :: rest => "&" ++ pair_text p ++ more_text rest
  end.

(** The values [getTweets] does not send, as a proposition and as the
    test of the loop. *)
Definition unset (v : value) : Prop :=
  v = VUndefined \/ v = VNull \/ v = VString "".

Definition is_set (v : value) : bool :=
  negb (is_undefined v) && negb (is_null v) && negb (is_empty_string v).

(** The data a caught call hands on: the answer's, or the fallback. *)
Definition data_or (r : outcome (response value)) (fallback : value) : value :=
  match r with
  | Resolved x => data x
  | Rejected _ => fallback
  end.

(** The endpoint the toggle calls and the notification of success. *)
Definition toggle_call (st : Dashboard.state) : api_call :=
  if Dashboard.scheduler_running st then StopScheduler else StartScheduler.

Definition toggle_done (st : Dashboard.state) : string :=
  if Dashboard.scheduler_running st then "Scheduler stopped"
  else "Scheduler started".

Section WithEngine.
Context {engine : Engine}.

(** What one call through the facade leaves in the trace before the
    answer is known, and once it is known. *)
Definition request_events (c : api_call) : list event :=
  [ ConsoleLog ("Making " ++ method_name (method_of c)
                ++ " request to " ++ url_of c);
    Http (method_of c) (url_of c) (body_of c) ].

Definition call_events {A} (c : api_call) (r : outcome A) : list event :=
  (request_events c
   ++ match r with
      | Resolved _ => []
      | Rejected e => [ConsoleError "API Error:" (LogValue (error_detail e))]
      end)%list.

(** The call [fetchTweets] makes from a given component state. *)
Definition list_call (st : TweetsList.state) : api_call :=
  GetTweets (tweets_query (TweetsList.filters st)).

End WithEngine.

End Observed.

(* ================================================================== *)
(** * Library functions the components call                            *)
(* ================================================================== *)

Module Host.

Import JS.

(** What the components use of the platform and of date-fns, taken as
    it is.  [None] is a thrown exception. *)
Class Library : Type := {
  (** [s.toLowerCase()] for a string with a byte outside ASCII. *)
  lower_non_ascii : string -> string;
  (** [parseFloat(s)]. *)
  parseFloat : string -> float;
  (** [v.toLocaleString()] for [v] other than [null]/[undefined]. *)
  toLocaleString : value -> option string;
  (** [n.toFixed(1)]. *)
  toFixed1 : float -> string;
  (** [formatDistanceToNow(new Date(v), { addSuffix: true })]. *)
  formatDistanceToNow : value -> option string;
  (** [Object.entries(s)] for a string primitive. *)
  string_entries : string -> list (string * value)
}.

Fixpoint all_bytes (p : ascii -> bool) (s : string) : bool :=
  match s with
  | EmptyString => true
  | String c rest => p c && all_bytes p rest
  end.

Fixpoint map_bytes (f : ascii -> ascii) (s : string) : string :=
  match s with
  | EmptyString => EmptyString
  | String c rest => String (f c) (map_bytes f rest)
  end.

Definition is_ascii (c : ascii) : bool := (N_of_ascii c <? 128)%N.

Definition lower_ascii (c : ascii) : ascii :=
  let n := N_of_ascii c in
  if ((65 <=? n) && (n <=? 90))%N then ascii_of_N (n + 32) else c.

(** [s.toLowerCase()]: on an ASCII string the letters A-Z become a-z;
    other strings go through the library. *)
Definition toLowerCase {library : Library} (s : string) : string :=
  if all_bytes is_ascii s then map_bytes lower_ascii s else lower_non_ascii s.

(** [Math.min(...values)]: NaN if a value is NaN; otherwise the least
    value, starting from +Infinity, with -0 below +0. *)
Definition is_neg_zero (n : float) : bool :=
  PrimFloat.is_zero n && PrimFloat.get_sign n.

Definition is_pos_zero (n : float) : bool :=
  PrimFloat.is_zero n && negb (PrimFloat.get_sign n).

Definition Math_min (values : list float) : float :=
  if existsb PrimFloat.is_nan values then PrimFloat.nan
  else fold_left
         (fun lowest n =>
            if is_neg_zero n && is_pos_zero lowest then n
            else if (n <? lowest)%float then n
            else lowest)
         values PrimFloat.infinity.

(** The items of an array with their indices. *)
Definition indexed {A : Type} (l : list A) : list (nat * A) :=
  combine (seq 0 (List.length l)) l.

Definition decimal_of_nat (n : nat) : string :=
  NilEmpty.string_of_uint (Nat.to_uint n).

(** [v.k] for a data field [k] (not [length]) of a value that may be
    anything: it throws on [null] and [undefined]. *)
Definition member (v : value) (k : string) : option value :=
  match v with
  | VUndefined | VNull => None
  | VObject o => Some (get k o)
  | _ => Some VUndefined
  end.

(** What React accepts as a child: text, numbers, booleans, [null]
    and [undefined] (the last three show nothing), and arrays of
    such; for a plain object it throws ("Objects are not valid as a
    React child"). *)
Fixpoint renderable (v : value) : bool :=
  match v with
  | VObject _ => false
  | VArray items => forallb renderable items
  | _ => true
  end.

(** A value placed as a child: itself, or the exception. *)
Definition child (v : value) : option value :=
  if renderable v then Some v else None.

(** The value of [a && b] inside the markup: the falsy [a] itself
    ([Placed]), or the element [b]. *)
Inductive slot (A : Type) : Type :=
| Placed (v : value)
| Element (a : A).
Arguments Placed {A} v.
Arguments Element {A} a.

(** All the results, or the first exception. *)
Fixpoint traverse {A B : Type} (f : A -> option B) (l : list A) : option (list B) :=
  match l with
  | [] => Some []
  | x :: rest =>
      match f x with
      | Some y =>
          match traverse f rest with
          | Some ys => Some (y :: ys)
          | None => None
          end
      | None => None
      end
  end.

End Host.

(* ================================================================== *)
(** * The tweet browser: controls                                     *)
(* ================================================================== *)

Module TweetsListView.

Import JS Host TweetsList.

Definition gray : string := "text-gray-600 bg-gray-100".

(** [sentiment] is [None] when it is [null] or [undefined]. *)
Definition getSentimentColor {library : Library} (sentiment : option string)
  : string :=
  match option_map toLowerCase sentiment with
  | Some lowered =>
      if String.eqb lowered "positive" then green
      else if String.eqb lowered "negative" then red
      else gray
  | None => gray
  end.

(** The "Media" select: the option it displays for the filters,
    [None] when [has_media.toString()] throws. *)
Definition media_select_value {engine : Engine} (filters : object) : option string :=
  match get "has_media" filters with
  | VNull => Some ""
  | VUndefined => None
  | v => Some (ToString v)
  end.

(** The value its [onChange] hands to [handleFilterChange] for the
    option text [v]. *)
Definition media_select_change (v : string) : value :=
  if String.eqb v "" then VNull else VBool (String.eqb v "true").

(** The same for the "Quality" select. *)
Definition quality_select_change {library : Library} (v : string) : value :=
  if negb (String.eqb v "") then VNumber (parseFloat v) else VNull.

(** The controls of the page, with the text the event carries. *)
Inductive control : Type :=
| TypeQuery (text : string)
| TypeAuthor (text : string)
| PickSentiment (option_value : string)
| PickMedia (option_value : string)
| PickQuality (option_value : string)
| ClickLoadMore.

(** What a control does to the filters. *)
Definition control_update {engine : Engine} {library : Library}
    (c : control) : object -> object :=
  match c with
  | TypeQuery text => filter_change "query" (VString text)
  | TypeAuthor text => filter_change "author" (VString text)
  | PickSentiment v => filter_change "sentiment" (VString v)
  | PickMedia v => filter_change "has_media" (media_select_change v)
  | PickQuality v => filter_change "min_quality_score" (quality_select_change v)
  | ClickLoadMore => load_more
  end.

Definition after_controls {engine : Engine} {library : Library}
    (cs : list control) (start : object) : object :=
  fold_left (fun filters c => control_update c filters) cs start.

(** What every control keeps of the filters. *)
Definition steady (f : object) : Prop :=
  keys f = keys initial_filters
  /\ get "limit" f = VNumber 20
  /\ get "category" f = VString ""
  /\ get "is_thread" f = VNull
  /\ exists offset, get "offset" f = VNumber offset.

End TweetsListView.

(* ================================================================== *)
(** * The dashboard page                                               *)
(* ================================================================== *)

Module DashboardView.

Import JS Host Dashboard.

Section Page.
Context {engine : Engine} {library : Library}.

(** [analytics?.total_tweets?.toLocaleString() || 0]. *)
Definition total_tweets_text (analytics : value) : option value :=
  match opt_get analytics "total_tweets" with
  | VUndefined | VNull => Some (VNumber 0)
  | total =>
      match toLocaleString total with
      | Some text => Some (if String.eqb text "" then VNumber 0 else VString text)
      | None => None
      end
  end.

(** [x ? (x * 100).toFixed(1) + '%' : '0%']. *)
Definition percent_text (x : value) : string :=
  if truthy x then toFixed1 (ToNumber x * 100)%float ++ "%" else "0%".

(** Recent sessions. *)
Definition session_status_class (status : value) : string :=
  match status with
  | VString s =>
      if String.eqb s "completed" then "bg-green-100 text-green-800"
      else if String.eqb s "failed" then "bg-red-100 text-red-800"
      else "bg-yellow-100 text-yellow-800"
  | _ => "bg-yellow-100 text-yellow-800"
  end.

Record session_row : Type := mkSessionRow {
  session_key : value;
  session_processed : value;
  session_started : string;
  session_class : string;
  session_status : value
}.

Definition session_row_of (session : value) : option session_row :=
  match member session "id", member session "tweets_processed",
        member session "started_at", member session "status" with
  | Some id, Some processed, Some started_at, Some status =>
      match child processed, formatDistanceToNow started_at, child status with
      | Some processed_shown, Some started, Some status_shown =>
          Some (mkSessionRow id processed_shown started
                  (session_status_class status) status_shown)
      | _, _, _ => None
      end
  | _, _, _, _ => None
  end.

Inductive sessions_panel : Type :=
| SessionRows (rows : list session_row)
| NoSessions.

(** [sessions.length > 0 ? sessions.map(...) : message]: reading
    [length] throws on [null]/[undefined]; a value with a positive
    [length] that is not an array has no [map]. *)
Definition sessions_section (sessions : value) : option sessions_panel :=
  match sessions with
  | VUndefined | VNull => None
  | VArray items =>
      if (0 <? List.length items)%nat
      then option_map SessionRows (traverse session_row_of items)
      else Some NoSessions
  | VString s => if String.eqb s "" then Some NoSessions else None
  | VNumber _ | VBool _ => Some NoSessions
  | VObject o =>
      if (0 <? ToNumber (get "length" o))%float then None else Some NoSessions
  end.

(** Sentiment distribution. *)
Definition Object_entries (v : value) : list (string * value) :=
  match v with
  | VObject o => o
  | VArray items => map (fun e => (decimal_of_nat (fst e), snd e)) (indexed items)
  | VString s => string_entries s
  | _ => []
  end.

Definition bar_class (sentiment : string) : string :=
  if String.eqb sentiment "positive" then "bg-green-500"
  else if String.eqb sentiment "negative" then "bg-red-500"
  else "bg-gray-500".

(** [Math.min(100, (count / analytics.total_tweets) * 100)]. *)
Definition bar_width (count total : value) : float :=
  Math_min [100; (ToNumber count / ToNumber total * 100)]%float.

Record sentiment_row : Type := mkSentimentRow {
  sentiment_name : string;
  sentiment_class : string;
  sentiment_width : string;
  sentiment_count : value
}.

Inductive sentiment_panel : Type :=
| Bars (rows : list sentiment_row)
| NoSentiment.

Definition sentiment_row_of (analytics : value) (e : string * value)
  : option sentiment_row :=
  match child (snd e) with
  | Some count_shown =>
      Some (mkSentimentRow (fst e) (bar_class (fst e))
              (NumberToString
                 (bar_width (snd e) (opt_get analytics "total_tweets"))
               ++ "%")
              count_shown)
  | None => None
  end.

Definition sentiment_section (analytics : value) : option sentiment_panel :=
  let distribution := opt_get analytics "sentiment_distribution" in
  if truthy distribution
     && (0 <? List.length (map fst (Object_entries distribution)))%nat
  then option_map Bars
         (traverse (sentiment_row_of analytics) (Object_entries distribution))
  else Some NoSentiment.

(** Top categories. *)
Definition rank_class (index : nat) : string :=
  match index with
  | 0 => "bg-yellow-500"
  | 1 => "bg-gray-400"
  | 2 => "bg-orange-600"
  | _ => "bg-blue-500"
  end.

Record category_row : Type := mkCategoryRow {
  category_class : string;
  category_rank : nat;
  category_name : value;
  category_count : value
}.

Definition category_row_of (e : nat * value) : option category_row :=
  let (index, category) := e in
  match member category "category", member category "count" with
  | Some name, Some count =>
      match child name, child count with
      | Some name_shown, Some count_shown =>
          Some (mkCategoryRow (rank_class index) (index + 1)
                  name_shown count_shown)
      | _, _ => None
      end
  | _, _ => None
  end.

(** [analytics?.top_categories && analytics.top_categories.length > 0
    && (... top_categories.slice(0, 6).map(...) ...)]. *)
Definition top_categories_section (analytics : value)
  : option (slot (list category_row)) :=
  let top := opt_get analytics "top_categories" in
  if truthy top then
    match top with
    | VArray items =>
        if (0 <? List.length items)%nat
        then option_map Element
               (traverse category_row_of (indexed (firstn 6 items)))
        else Some (Placed (VBool false))
    | VString _ => None
    | VObject o =>
        if (0 <? ToNumber (get "length" o))%float then None
        else Some (Placed (VBool false))
    | _ => Some (Placed (VBool false))
    end
  else Some (Placed top).

(** Configuration: [config && (...)]. *)
Record config_fields : Type := mkConfigFields {
  schedule_interval : value;
  max_retries : value;
  batch_size : value
}.

Definition config_section (config : value) : option (slot config_fields) :=
  if truthy config then
    match child (opt_get config "schedule_interval"),
          child (opt_get config "max_retries"),
          child (opt_get config "batch_size") with
    | Some interval, Some retries, Some batch =>
        Some (Element (mkConfigFields interval retries batch))
    | _, _, _ => None
    end
  else Some (Placed config).

(** The page. *)
Record page : Type := mkPage {
  page_toggle : string;
  page_total_tweets : value;
  page_avg_quality : string;
  page_avg_engagement : string;
  page_scheduler : string;
  page_sessions : sessions_panel;
  page_sentiment : sentiment_panel;
  page_top_categories : slot (list category_row);
  page_config : slot config_fields
}.

Inductive screen : Type :=
| LoadingScreen
| PageScreen (p : page).

Definition render_page (st : state) : option screen :=
  if loading st then Some LoadingScreen
  else
    match total_tweets_text (analytics st),
          sessions_section (sessions st),
          sentiment_section (analytics st),
          top_categories_section (analytics st),
          config_section (config st) with
    | Some total, Some sessions_shown, Some sentiment_shown, Some top,
      Some config_shown =>
        Some (PageScreen
                (mkPage (toggle_label st) total
                   (percent_text (opt_get (analytics st) "avg_quality_score"))
                   (percent_text (opt_get (analytics st) "avg_engagement_score"))
                   (scheduler_card st)
                   sessions_shown
                   sentiment_shown
                   top
                   config_shown))
    | _, _, _, _, _ => None
    end.

End Page.

End DashboardView.

(* ================================================================== *)
(** * More vocabulary of the statements                                *)
(* ================================================================== *)

Module Counted.

Import JS Async Api.

(** The HTTP requests of a trace, in order. *)
Definition requests (events : list event) : list (method * string * option value) :=
  flat_map (fun ev => match ev with
                      | Http m url body => [(m, url, body)]
                      | _ => []
                      end) events.

(** The line the response interceptor prints for an answer. *)
Definition error_lines {A : Type} (r : outcome A) : list event :=
  match r with
  | Resolved _ => []
  | Rejected e => [ConsoleError "API Error:" (LogValue (error_detail e))]
  end.

(** An operation of the facade performs one call: it logs the
    request line, sends the one request, prints the error line when
    the server refuses, and hands over the answer or the error of the
    server as it is, the component state untouched. *)
Definition performs {backend : Backend} {S : Type} (c : api_call)
    (op : M server S (response (payload c)))
    (m : method) (verb url : string) (body : option value) : Prop :=
  forall w : world server S,
    op w
    = (fst (serve c (remote w)),
       mkWorld (view w)
         (trace w
          ++ [ ConsoleLog ("Making " ++ verb ++ " request to " ++ url);
               Http m url body ]
          ++ error_lines (fst (serve c (remote w))))
         (snd (serve c (remote w))))
    /\ requests (trace (snd (op w)))
       = (requests (trace w) ++ [(m, url, body)])%list.

(** The four request lines and the four requests of the dashboard
    fetch. *)
Definition dashboard_announced : list event :=
  [ ConsoleLog "Making GET request to /analytics";
    ConsoleLog "Making GET request to /scheduler/status";
    ConsoleLog "Making GET request to /scraper/sessions?limit=5";
    ConsoleLog "Making GET request to /config" ].

Definition dashboard_sent : list event :=
  [ Http GET "/analytics" None;
    Http GET "/scheduler/status" None;
    Http GET "/scraper/sessions?limit=5" None;
    Http GET "/config" None ].

Definition dashboard_requests : list (method * string * option value) :=
  [ (GET, "/analytics", None);
    (GET, "/scheduler/status", None);
    (GET, "/scraper/sessions?limit=5", None);
    (GET, "/config", None) ].

(** Both fields of a category can be placed in the page. *)
Definition fields_shown (c : object) : bool :=
  Host.renderable (get "category" c) && Host.renderable (get "count" c).

(** The mantissa of a whole number, aligned on 53 bits. *)
Definition aligned (p : positive) : positive :=
  match (Zpos (digits2_pos p) - 53)%Z with
  | Zneg k => Pos.iter xO p k
  | _ => p
  end.

End Counted.

(* ================================================================== *)
(** * A concrete library for the examples                              *)
(* ================================================================== *)

Module ScenarioLibrary.

Import JS Host.

(** A library for runs on ASCII text and whole numbers. *)
Definition plain_library : Library :=
  {| lower_non_ascii := fun s => s;
     parseFloat := fun _ => PrimFloat.nan;
     toLocaleString := fun v => Some (ToString (engine := Scenario.plain_engine) v);
     toFixed1 := fun _ => "NaN";
     formatDistanceToNow := fun v =>
       match v with
       | VString "2024-01-01T10:00:00Z" => Some "3 minutes ago"
       | _ => None
       end;
     string_entries := fun _ => [] |}.

(** The filters with a value that looks like more parameters. *)
Definition tricky_filters : object :=
  [ ("query", VString "a&offset=999"); ("author", VString "");
    ("has_media", VBool false); ("limit", VNumber 20); ("offset", VNumber 0) ].

(** An analytics snapshot with eight categories. *)
Definition category_objects : list object :=
  map (fun name => [("category", VString name); ("count", VNumber 5)])
      ["ai"; "ml"; "web"; "db"; "os"; "pl"; "hw"; "ux"].

Definition eight_categories : object :=
  [ ("total_tweets", VNumber 40);
    ("sentiment_distribution",
     VObject [("positive", VNumber 10); ("negative", VNumber 50)]);
    ("top_categories", VArray (map VObject category_objects)) ].

Definition eight_categories_value : value := VObject eight_categories.

(** The page after a fetch in which only the status call failed. *)
Definition stopped_page : DashboardView.page :=
  DashboardView.mkPage "Start Scheduler" (VString "2") "0%" "0%" "Stopped"
    (DashboardView.SessionRows
       [DashboardView.mkSessionRow (VNumber 7) (VNumber 12) "3 minutes ago"
          "bg-green-100 text-green-800" (VString "completed")])
    DashboardView.NoSentiment (Placed VUndefined)
    (Element (DashboardView.mkConfigFields VUndefined VUndefined (VNumber 50))).

(** The dashboard of the examples when the toggle handler has settled
    after a stop that got through. *)
Definition toggled : Async.world bool Dashboard.state :=
  Async.mkWorld (Dashboard.with_loading true Scenario.running_view)
    [ Async.ConsoleLog "Making POST request to /scheduler/stop";
      Async.Http Async.POST "/scheduler/stop" None;
      Async.ToastSuccess "Scheduler stopped" ]
    false.

(** A server that refuses every call with an error body. *)
Definition refusal : Async.error :=
  Async.mkError "Request failed with status code 409"
    (Some (VObject [("detail", VString "scheduler busy")])).

Definition refusing : Api.Backend :=
  {| Api.server := bool;
     Api.serve := fun c running => (Async.Rejected refusal, running) |}.

(** A server that answers nothing. *)
Definition all_down : Api.api_call -> bool := fun _ => true.

End ScenarioLibrary.

(* ================================================================== *)
(** * Facts about byte strings and the urlencoded format               *)
(* ================================================================== *)

Module URLFacts.

Import URL Observed.

Lemma append_assoc (a b c : string) : (a ++ b) ++ c = a ++ b ++ c.
Proof. induction a as [|x a IH]; simpl; [reflexivity | now rewrite IH]. Qed.

Lemma append_nil_r (a : string) : a ++ "" = a.
Proof. induction a as [|x a IH]; simpl; [reflexivity | now rewrite IH]. Qed.

Lemma occurs_app c a b : occurs c (a ++ b) = occurs c a || occurs c b.
Proof.
  induction a as [|x a IH]; simpl; [reflexivity|].
  now rewrite IH, orb_assoc.
Qed.

Ltac each_byte c := destruct c as [[] [] [] [] [] [] [] []].

Lemma encode_byte_separators (c : ascii) :
  occurs "&" (encode_byte c) = false /\ occurs "=" (encode_byte c) = false.
Proof. each_byte c; split; reflexivity. Qed.

Lemma urlencode_separators (s : string) :
  occurs "&" (urlencode s) = false /\ occurs "=" (urlencode s) = false.
Proof.
  induction s as [|c s [IH1 IH2]]; simpl; [split; reflexivity|].
  destruct (encode_byte_separators c) as [H1 H2].
  rewrite !occurs_app, H1, H2, IH1, IH2. split; reflexivity.
Qed.

Lemma urldecode_encode_byte (c : ascii) (rest : string) :
  urldecode (encode_byte c ++ rest) = String c (urldecode rest).
Proof. unfold urldecode. each_byte c; reflexivity. Qed.

(** Decoding undoes encoding, byte string by byte string. *)
Lemma urldecode_urlencode (s : string) : urldecode (urlencode s) = s.
Proof.
  induction s as [|c s IH]; [reflexivity|].
  simpl urlencode. now rewrite urldecode_encode_byte, IH.
Qed.

Lemma split_cons sep a b :
  occurs sep a = false -> split sep (a ++ String sep b) = a :: split sep b.
Proof.
  induction a as [|x a IH]; simpl.
  - intros _. now rewrite Ascii.eqb_refl.
  - intros H. apply orb_false_elim in H as [Hx Ha].
    rewrite Hx, (IH Ha). reflexivity.
Qed.

Lemma split_one sep a : occurs sep a = false -> split sep a = [a].
Proof.
  induction a as [|x a IH]; simpl; [reflexivity|].
  intros H. apply orb_false_elim in H as [Hx Ha].
  rewrite Hx, (IH Ha). reflexivity.
Qed.

Lemma cut_at sep a b :
  occurs sep a = false -> cut sep (a ++ String sep b) = (a, b).
Proof.
  induction a as [|x a IH]; simpl.
  - intros _. now rewrite Ascii.eqb_refl.
  - intros H. apply orb_false_elim in H as [Hx Ha].
    rewrite Hx, (IH Ha). reflexivity.
Qed.

Lemma pair_text_nonempty p : pair_text p <> "".
Proof.
  unfold pair_text. destruct (urlencode (fst p)); simpl; discriminate.
Qed.

Lemma append_nonempty a b : a <> "" -> a ++ b <> "".
Proof. destruct a; simpl; [congruence | discriminate]. Qed.

Lemma serialize_from (qp : URLSearchParams) (output : string) :
  output <> "" ->
  fold_left
    (fun output '(name, value) =>
       (if String.eqb output "" then output else output ++ "&")
       ++ urlencode name ++ "=" ++ urlencode value)
    qp output
  = output ++ more_text qp.
Proof.
  revert output. induction qp as [|[n v] qp IH]; intros output Hne; simpl.
  - now rewrite append_nil_r.
  - apply String.eqb_neq in Hne as Hb. rewrite Hb.
    rewrite IH.
    + unfold pair_text. simpl. now rewrite !append_assoc.
    + now apply append_nonempty, append_nonempty.
Qed.

Lemma serialize_cons p qp : serialize (p :: qp) = pair_text p ++ more_text qp.
Proof.
  unfold serialize. destruct p as [n v]. simpl.
  rewrite serialize_from; [reflexivity|]. apply (pair_text_nonempty (n, v)).
Qed.

Lemma pair_text_no_amp p : occurs "&" (pair_text p) = false.
Proof.
  unfold pair_text. rewrite !occurs_app.
  destruct (urlencode_separators (fst p)) as [H1 _].
  destruct (urlencode_separators (snd p)) as [H2 _].
  now rewrite H1, H2.
Qed.

Lemma split_texts x qp :
  occurs "&" x = false ->
  split "&" (x ++ more_text qp) = x :: map pair_text qp.
Proof.
  revert x. induction qp as [|p qp IH]; intros x Hx; simpl.
  - rewrite append_nil_r. now apply split_one.
  - change ("&" ++ pair_text p ++ more_text qp)
      with (String "&" (pair_text p ++ more_text qp)).
    rewrite split_cons by exact Hx.
    now rewrite IH by apply pair_text_no_amp.
Qed.

Lemma parse_pair_text p :
  (let (name, value) := cut "=" (pair_text p) in (urldecode name, urldecode value)) = p.
Proof.
  destruct p as [n v]. unfold pair_text. simpl fst; simpl snd.
  change ("=" ++ urlencode v) with (String "=" (urlencode v)).
  rewrite cut_at by apply urlencode_separators.
  now rewrite !urldecode_urlencode.
Qed.

(** Reading back the text [toString()] wrote gives the tuples that
    were written, in order. *)
Lemma parse_serialize (qp : URLSearchParams) : parse (serialize qp) = qp.
Proof.
  destruct qp as [|p qp]; [reflexivity|].
  rewrite serialize_cons. unfold parse.
  rewrite split_texts by apply pair_text_no_amp.
  change (pair_text p :: map pair_text qp) with (map pair_text (p :: qp)).
  generalize (p :: qp). clear. intros l.
  induction l as [|q l IH]; [reflexivity|].
  simpl map at 2. simpl filter.
  destruct (String.eqb_spec (pair_text q) "") as [E|_].
  - now apply pair_text_nonempty in E.
  - simpl. now rewrite parse_pair_text, IH.
Qed.

End URLFacts.


(* ================================================================== *)
(** * Order facts on binary64 Numbers                                  *)
(* ================================================================== *)

Module FloatFacts.

Ltac cmp_cases :=
  repeat match goal with
  | |- context [Z.compare ?a ?b] => destruct (Z.compare_spec a b)
  | H : context [Z.compare ?a ?b] |- _ => destruct (Z.compare_spec a b)
  | |- context [Pos.compare_cont Eq ?a ?b] =>
      change (Pos.compare_cont Eq a b) with (Pos.compare a b)
  | H : context [Pos.compare_cont Eq ?a ?b] |- _ =>
      change (Pos.compare_cont Eq a b) with (Pos.compare a b) in H
  | |- context [Pos.compare ?a ?b] => destruct (Pos.compare_spec a b)
  | H : context [Pos.compare ?a ?b] |- _ => destruct (Pos.compare_spec a b)
  end.

Ltac by_cases :=
  simpl; try discriminate; try reflexivity;
  repeat match goal with s : bool |- _ => destruct s end;
  simpl; try discriminate; try reflexivity;
  cmp_cases; simpl; try discriminate; try reflexivity;
  intros; exfalso; subst; try lia.

Lemma SF_lt_le_trans (x y z : spec_float) :
  SFltb x y = true -> SFleb y z = true -> SFleb z x = false.
Proof.
  unfold SFltb, SFleb.
  destruct x as [sx|sx| |sx mx ex], y as [sy|sy| |sy my ey],
           z as [sz|sz| |sz mz ez]; by_cases.
Qed.

Lemma SF_lt_not_ge (x y : spec_float) :
  SFltb x y = true -> SFleb y x = false.
Proof.
  unfold SFltb, SFleb.
  destruct x as [sx|sx| |sx mx ex], y as [sy|sy| |sy my ey]; by_cases.
Qed.

(** [x < y] and [y <= z] exclude [z <= x]. *)
Lemma lt_le_trans (x y z : float) :
  (x <? y)%float = true -> (y <=? z)%float = true -> (z <=? x)%float = false.
Proof. rewrite ltb_spec, !leb_spec. apply SF_lt_le_trans. Qed.

(** [x < y] excludes [y <= x]. *)
Lemma lt_not_ge (x y : float) :
  (x <? y)%float = true -> (y <=? x)%float = false.
Proof. rewrite ltb_spec, leb_spec. apply SF_lt_not_ge. Qed.

(** The number of binary digits of a mantissa. *)
Lemma digits_iter (p : positive) (k : positive) :
  digits2_pos (Pos.iter xO p k) = (digits2_pos p + k)%positive.
Proof.
  induction k as [|k IH] using Pos.peano_ind.
  - simpl. lia.
  - rewrite Pos.iter_succ. simpl. rewrite IH. lia.
Qed.

Lemma digits_bounds (p : positive) :
  (2 ^ (Zpos (digits2_pos p) - 1) <= Zpos p < 2 ^ Zpos (digits2_pos p))%Z.
Proof.
  induction p as [p IH|p IH|]; cbn [digits2_pos].
  - rewrite Pos2Z.inj_succ.
    replace (Z.succ (Zpos (digits2_pos p)) - 1)%Z with (Zpos (digits2_pos p)) by lia.
    rewrite Z.pow_succ_r by lia.
    assert (H : (2 ^ Zpos (digits2_pos p) = 2 * 2 ^ (Zpos (digits2_pos p) - 1))%Z).
    { rewrite <- Z.pow_succ_r by lia. f_equal. lia. }
    lia.
  - rewrite Pos2Z.inj_succ.
    replace (Z.succ (Zpos (digits2_pos p)) - 1)%Z with (Zpos (digits2_pos p)) by lia.
    rewrite Z.pow_succ_r by lia.
    assert (H : (2 ^ Zpos (digits2_pos p) = 2 * 2 ^ (Zpos (digits2_pos p) - 1))%Z).
    { rewrite <- Z.pow_succ_r by lia. f_equal. lia. }
    lia.
  - simpl. lia.
Qed.

Lemma digits_aligned (p : positive) :
  (Zpos (digits2_pos p) <= 53)%Z -> digits2_pos (Counted.aligned p) = 53%positive.
Proof.
  intros H. unfold Counted.aligned.
  destruct (Zpos (digits2_pos p) - 53)%Z as [|k|k] eqn:E; try lia.
  rewrite digits_iter. lia.
Qed.

Lemma normalize_pos (p : positive) :
  (Zpos (digits2_pos p) <= 53)%Z ->
  binary_normalize prec emax (Zpos p) 0 false
  = S754_finite false (Counted.aligned p) (Zpos (digits2_pos p) - 53).
Proof.
  intros H. pose proof (digits_aligned p H) as Hd.
  unfold binary_normalize, binary_round.
  assert (Hf : fexp prec emax (Zpos (digits2_pos p) + 0) = (Zpos (digits2_pos p) - 53)%Z).
  { unfold fexp, emin, prec, emax. lia. }
  rewrite Hf.
  assert (Ha : shl_align p 0 (Zpos (digits2_pos p) - 53)
               = (Counted.aligned p, (Zpos (digits2_pos p) - 53)%Z)).
  { unfold shl_align, Counted.aligned. rewrite Z.sub_0_r.
    destruct (Zpos (digits2_pos p) - 53)%Z as [|k|k] eqn:E; try lia; reflexivity. }
  rewrite Ha. unfold binary_round_aux.
  assert (Hs : forall m, digits2_pos m = 53%positive ->
               shr_fexp prec emax (Zpos m) (Zpos (digits2_pos p) - 53) loc_Exact
               = ({| shr_m := Zpos m; shr_r := false; shr_s := false |},
                  (Zpos (digits2_pos p) - 53)%Z)).
  { intros m Hm. unfold shr_fexp. cbn [Zdigits2 shr_record_of_loc]. rewrite Hm.
    assert (Hf' : (fexp prec emax (53 + (Zpos (digits2_pos p) - 53))
                   - (Zpos (digits2_pos p) - 53) = 0)%Z).
    { unfold fexp, emin, prec, emax. lia. }
    rewrite Hf'. reflexivity. }
  rewrite (Hs _ Hd). cbn [shr_m loc_of_shr_record round_nearest_even].
  rewrite (Hs _ Hd). cbn [shr_m].
  assert (Hle : (Zpos (digits2_pos p) - 53 <=? emax - prec)%Z = true).
  { apply Z.leb_le. unfold emax, prec. lia. }
  now rewrite Hle.
Qed.

Lemma compare_iter (p q k : positive) :
  Pos.compare (Pos.iter xO p k) (Pos.iter xO q k) = Pos.compare p q.
Proof.
  induction k as [|k IH] using Pos.peano_ind.
  - reflexivity.
  - rewrite !Pos.iter_succ. exact IH.
Qed.

Lemma compare_aligned (p q : positive) :
  digits2_pos p = digits2_pos q ->
  Pos.compare (Counted.aligned p) (Counted.aligned q) = Pos.compare p q.
Proof.
  intros E. unfold Counted.aligned. rewrite E.
  destruct (Zpos (digits2_pos q) - 53)%Z; try reflexivity. apply compare_iter.
Qed.

(** The whole numbers below 2^53 are ordered as Numbers the way they
    are ordered as integers. *)
Lemma SFcompare_whole (a b : Z) :
  (0 <= a < 2 ^ 53)%Z -> (0 <= b < 2 ^ 53)%Z ->
  SFcompare (binary_normalize prec emax a 0 false)
            (binary_normalize prec emax b 0 false)
  = Some (Z.compare a b).
Proof.
  intros Ha Hb.
  assert (D : forall p, (Zpos p < 2 ^ 53)%Z -> (Zpos (digits2_pos p) <= 53)%Z).
  { intros p Hp. pose proof (digits_bounds p) as [Hlo _].
    destruct (Z_le_gt_dec (Zpos (digits2_pos p)) 53) as [|Hgt]; [assumption|].
    exfalso. assert (2 ^ 53 <= 2 ^ (Zpos (digits2_pos p) - 1))%Z
      by (apply Z.pow_le_mono_r; lia). lia. }
  destruct a as [|p|p], b as [|q|q]; try lia.
  - reflexivity.
  - rewrite normalize_pos by (apply D; lia). reflexivity.
  - rewrite normalize_pos by (apply D; lia). reflexivity.
  - rewrite !normalize_pos by (apply D; lia). cbn [SFcompare].
    pose proof (digits_bounds p) as [Hp1 Hp2].
    pose proof (digits_bounds q) as [Hq1 Hq2].
    destruct (Z.compare_spec (Zpos (digits2_pos p) - 53) (Zpos (digits2_pos q) - 53))
      as [E|E|E].
    + change (Pos.compare_cont Eq (Counted.aligned p) (Counted.aligned q))
        with (Pos.compare (Counted.aligned p) (Counted.aligned q)).
      rewrite compare_aligned by lia. reflexivity.
    + f_equal. symmetry. apply Z.compare_lt_iff.
      assert (2 ^ Zpos (digits2_pos p) <= 2 ^ (Zpos (digits2_pos q) - 1))%Z
        by (apply Z.pow_le_mono_r; lia). lia.
    + f_equal. symmetry. apply Z.compare_gt_iff.
      assert (2 ^ Zpos (digits2_pos q) <= 2 ^ (Zpos (digits2_pos p) - 1))%Z
        by (apply Z.pow_le_mono_r; lia). lia.
Qed.

(** The Number of an array length is that length. *)
Lemma Prim2SF_of_nat (n : nat) :
  (Z.of_nat n < 2 ^ 53)%Z ->
  Prim2SF (JS.Number_of_nat n) = binary_normalize prec emax (Z.of_nat n) 0 false.
Proof.
  intros H. unfold JS.Number_of_nat. rewrite of_uint63_spec, Uint63.of_Z_spec.
  rewrite Z.mod_small; [reflexivity|].
  split; [lia|]. apply Z.lt_trans with (2 ^ 53)%Z; [exact H | reflexivity].
Qed.

(** So are the Numbers of two array lengths. *)
Lemma leb_of_nat (a b : nat) :
  (Z.of_nat a < 2 ^ 53)%Z -> (Z.of_nat b < 2 ^ 53)%Z ->
  (JS.Number_of_nat a <=? JS.Number_of_nat b)%float = (a <=? b)%nat.
Proof.
  intros Ha Hb. rewrite FloatAxioms.leb_spec, !Prim2SF_of_nat by assumption.
  unfold SFleb. rewrite SFcompare_whole by lia.
  destruct (Nat.leb_spec a b) as [H|H].
  - destruct (Z.compare_spec (Z.of_nat a) (Z.of_nat b)); try reflexivity; lia.
  - destruct (Z.compare_spec (Z.of_nat a) (Z.of_nat b)); try reflexivity; lia.
Qed.

End FloatFacts.

(* ================================================================== *)
(** * The facade                                                       *)
(* ================================================================== *)

Module ApiFacts.

Import JS Async Api Observed.

Lemma is_set_unset (v : value) : is_set v = false <-> unset v.
Proof.
  unfold unset, is_set. split.
  - destruct v as [| | | |s| |]; simpl; try discriminate; auto.
    destruct (String.eqb_spec s ""); [subst; auto | discriminate].
  - intros [-> | [-> | ->]]; reflexivity.
Qed.

Lemma wf_object_unique (o : object) (k : string) (v v' : value) :
  wf_object o -> In (k, v) o -> In (k, v') o -> v = v'.
Proof.
  unfold wf_object, keys. induction o as [|[k0 v0] o IH]; simpl; [tauto|].
  intros Hnd [E1|H1] [E2|H2]; inversion Hnd as [|? ? Hnot Hnd']; subst.
  - congruence.
  - inversion E1; subst. exfalso. apply Hnot.
    change k with (fst (k, v')). now apply in_map.
  - inversion E2; subst. exfalso. apply Hnot.
    change k with (fst (k, v)). now apply in_map.
  - now apply IH.
Qed.

Section WithEngine.
Context {engine : Engine}.

(** The [forEach] loop, as a filter followed by a map. *)
Lemma tweets_queryParams_eq (params : object) :
  tweets_queryParams params
  = map (fun e => (fst e, ToString (snd e)))
        (filter (fun e => is_set (snd e)) params).
Proof.
  unfold tweets_queryParams.
  change (map (fun e => (fst e, ToString (snd e)))
              (filter (fun e => is_set (snd e)) params))
    with ([] ++ map (fun e => (fst e, ToString (snd e)))
                    (filter (fun e => is_set (snd e)) params))%list.
  generalize (@nil (string * string)).
  induction params as [|[k v] params IH]; intros acc; simpl.
  - now rewrite app_nil_r.
  - rewrite IH. fold (is_set v). destruct (is_set v); simpl; [|reflexivity].
    unfold URL.append. now rewrite <- app_assoc.
Qed.

Lemma in_tweets_queryParams (params : object) (key s : string) :
  In (key, s) (tweets_queryParams params) <->
  exists v, In (key, v) params /\ is_set v = true /\ s = ToString v.
Proof.
  rewrite tweets_queryParams_eq, in_map_iff. split.
  - intros [[k v] [E H]]. apply filter_In in H as [Hin Hset].
    simpl in *. inversion E; subst. now exists v.
  - intros [v [Hin [Hset ->]]]. exists (key, v). split; [reflexivity|].
    apply filter_In. now split.
Qed.

Section WithBackend.
Context {backend : Backend} {S : Type}.

Lemma request_run (c : api_call) (w : world server S) :
  request c w =
  match serve c (remote w) with
  | (Resolved r, srv) =>
      (Resolved r, mkWorld (view w) (trace w ++ request_events c) srv)
  | (Rejected e, srv) =>
      (Rejected e,
       mkWorld (view w)
         (trace w ++ request_events c
          ++ [ConsoleError "API Error:" (LogValue (error_detail e))])
         srv)
  end.
Proof.
  unfold request, bind, emit, throw, request_events. simpl.
  destruct (serve c (remote w)) as [[r|e] srv]; simpl.
  - now rewrite <- app_assoc.
  - now rewrite <- !app_assoc.
Qed.

(** Awaited at once, a started call is the call. *)
Lemma await_started (c : api_call) (w : world server S) :
  await (started c) w = request c w.
Proof.
  unfold await, started, request, arrived, bind, emit, ret, throw.
  cbn [announce dispatch view trace remote].
  now destruct (serve c (remote w)) as [[r|e] srv].
Qed.

(** The tuples of the query string, seen from one property of a
    well-formed filter object. *)
Lemma query_tuple_unset (params : object) (key : string) (value : value) :
  wf_object params -> In (key, value) params -> unset value ->
  forall s, ~ In (key, s) (URL.parse (tweets_query params)).
Proof.
  intros Hwf Hin Hun s Hs. unfold tweets_query in Hs.
  rewrite URLFacts.parse_serialize in Hs.
  apply in_tweets_queryParams in Hs as [v [Hv [Hset _]]].
  rewrite (wf_object_unique _ _ _ _ Hwf Hv Hin) in Hset.
  apply is_set_unset in Hun. congruence.
Qed.

Lemma query_tuple_set (params : object) (key : string) (value : value) :
  wf_object params -> In (key, value) params -> ~ unset value ->
  forall s, In (key, s) (URL.parse (tweets_query params)) <-> s = ToString value.
Proof.
  intros Hwf Hin Hset s. unfold tweets_query.
  rewrite URLFacts.parse_serialize, in_tweets_queryParams. split.
  - intros [v [Hv [_ ->]]]. now rewrite (wf_object_unique _ _ _ _ Hwf Hv Hin).
  - intros ->. exists value. repeat split; [assumption|].
    destruct (is_set value) eqn:E; [reflexivity|].
    apply is_set_unset in E. contradiction.
Qed.

Lemma getTweets_trace (params : object) (w : world server S) :
  exists after,
    trace (snd (getTweets (Some params) w))
    = (trace w
       ++ [ ConsoleLog ("Making GET request to /tweets?" ++ tweets_query params);
            Http GET ("/tweets?" ++ tweets_query params) None ]
       ++ after)%list.
Proof.
  unfold getTweets. rewrite request_run.
  destruct (serve _ (remote w)) as [[r|e] srv]; simpl.
  - exists []. reflexivity.
  - eexists. reflexivity.
Qed.

(** C1.  [getTweets] sends one request, to [/tweets?] followed by the
    query string built from the filter object.  Read back as
    urlencoded text, that query string has no tuple named after a key
    whose value is [undefined], [null] or [''], and for every other
    key exactly the tuple of the key with the string form of its
    value. *)
Theorem getTweets_query_spec
    (params : object) (key : string) (value : value) :
  wf_object params ->
  In (key, value) params ->
  (forall w : world server S,
      exists after,
        trace (snd (getTweets (Some params) w))
        = (trace w
           ++ [ ConsoleLog ("Making GET request to /tweets?" ++ tweets_query params);
                Http GET ("/tweets?" ++ tweets_query params) None ]
           ++ after)%list)
  /\ (unset value ->
      forall s, ~ In (key, s) (URL.parse (tweets_query params)))
  /\ (~ unset value ->
      forall s, In (key, s) (URL.parse (tweets_query params))
                <-> s = ToString value).
Proof.
  intros Hwf Hin. split; [|split].
  - intros w. apply getTweets_trace.
  - now apply query_tuple_unset.
  - now apply query_tuple_set.
Qed.

End WithBackend.

End WithEngine.

Ltac distinct_keys :=
  unfold wf_object, keys; simpl;
  repeat (constructor; [simpl; intuition discriminate|]); constructor.

(** C1 on the filters of the browser once an author is typed in:
    [author] is sent with its text, the empty [query] is not sent. *)
Lemma getTweets_query_spec_witness :
  wf_object Scenario.author_typed
  /\ In ("author", VString "bob smith") Scenario.author_typed
  /\ In ("author", "bob smith")
        (URL.parse (tweets_query (engine := Scenario.plain_engine)
                      Scenario.author_typed)).
Proof.
  assert (Hwf : wf_object Scenario.author_typed) by distinct_keys.
  assert (Hin : In ("author", VString "bob smith") Scenario.author_typed)
    by (simpl; auto).
  split; [exact Hwf | split; [exact Hin|]].
  apply (proj2 (proj2
    (getTweets_query_spec (engine := Scenario.plain_engine)
       (backend := Scenario.backend Scenario.all_up) (S := unit)
       Scenario.author_typed "author" (VString "bob smith") Hwf Hin))).
  - unfold unset. intuition discriminate.
  - reflexivity.
Defined.

End ApiFacts.

(* ================================================================== *)
(** * Objects                                                          *)
(* ================================================================== *)

Module ObjectFacts.

Import JS.

Lemma get_set_same (k : string) (v : value) (o : object) :
  get k (set k v o) = v.
Proof.
  induction o as [|[k' v'] o IH]; simpl.
  - now rewrite String.eqb_refl.
  - destruct (String.eqb k k') eqn:E; simpl; rewrite E; [reflexivity | exact IH].
Qed.

Lemma get_set_other (k k' : string) (v : value) (o : object) :
  k <> k' -> get k (set k' v o) = get k o.
Proof.
  intros Hne. induction o as [|[k0 v0] o IH]; simpl.
  - apply String.eqb_neq in Hne. now rewrite Hne.
  - destruct (String.eqb k' k0) eqn:E; simpl.
    + apply String.eqb_eq in E. subst k0.
      apply String.eqb_neq in Hne. now rewrite Hne.
    + now rewrite IH.
Qed.

Lemma in_set (k : string) (v : value) (o : object) : In (k, v) (set k v o).
Proof.
  induction o as [|[k' v'] o IH]; simpl; [auto|].
  destruct (String.eqb k k') eqn:E; simpl; [|auto].
  apply String.eqb_eq in E. subst. auto.
Qed.

Lemma keys_set (k : string) (v : value) (o : object) :
  keys (set k v o) = if has_key k o then keys o else (keys o ++ [k])%list.
Proof.
  unfold keys. induction o as [|[k' v'] o IH]; simpl; [reflexivity|].
  destruct (String.eqb k k') eqn:E; simpl; [reflexivity|].
  rewrite IH. now destruct (has_key k o).
Qed.

Lemma has_key_in (k : string) (o : object) :
  has_key k o = true <-> In k (keys o).
Proof.
  unfold keys. induction o as [|[k' v'] o IH]; simpl; [intuition discriminate|].
  rewrite orb_true_iff, IH, String.eqb_eq. intuition.
Qed.

(** Defining a property keeps the keys distinct. *)
Lemma wf_set (k : string) (v : value) (o : object) :
  wf_object o -> wf_object (set k v o).
Proof.
  unfold wf_object. rewrite keys_set.
  destruct (has_key k o) eqn:E; [auto|]. intros Hnd.
  apply NoDup_app; [exact Hnd | repeat constructor; simpl; tauto |].
  intros x Hx [<-|[]]. apply has_key_in in Hx. congruence.
Qed.

End ObjectFacts.

(* ================================================================== *)
(** * The tweet browser                                                *)
(* ================================================================== *)

Module TweetsListFacts.

Import JS Async Api TweetsList Observed.
Import ApiFacts ObjectFacts.

Section WithEnvironment.
Context {engine : Engine} {backend : Backend}.

(** One run of [fetchTweets], by the answer of the server. *)
Lemma fetchTweets_run (w : world server state) :
  fetchTweets w =
  match serve (list_call (view w)) (remote w) with
  | (Resolved r, srv) =>
      (Resolved tt,
       mkWorld
         (mkState (data r) false (filters (view w)) (selectedTweet (view w)))
         (trace w ++ request_events (list_call (view w)))
         srv)
  | (Rejected e, srv) =>
      (Resolved tt,
       mkWorld
         (with_loading false (view w))
         (trace w ++ request_events (list_call (view w))
          ++ [ ConsoleError "API Error:" (LogValue (error_detail e));
               ConsoleError "Error fetching tweets:" (LogError e);
               ToastError "Failed to load tweets" ])
         srv)
  end.
Proof.
  unfold fetchTweets, getTweets, list_call, bind, read, finally, try_catch.
  unfold setLoading, setTweets, update. simpl.
  rewrite request_run. simpl.
  destruct (serve _ (remote w)) as [[r|e] srv]; simpl.
  - reflexivity.
  - unfold emit. simpl. now rewrite <- !app_assoc.
Qed.

Lemma handleLoadMore_run (w : world server state) :
  handleLoadMore w =
  (Resolved tt,
   mkWorld (with_filters (load_more (filters (view w))) (view w))
           (trace w) (remote w)).
Proof. reflexivity. Qed.

Lemma handleFilterChange_run (key : string) (v : value) (w : world server state) :
  handleFilterChange key v w =
  (Resolved tt,
   mkWorld (with_filters (filter_change key v (filters (view w))) (view w))
           (trace w) (remote w)).
Proof. reflexivity. Qed.

(** The filters keep their keys distinct. *)
Lemma filters_well_formed :
  wf_object initial_filters
  /\ (forall key v prev, wf_object prev -> wf_object (filter_change key v prev))
  /\ (forall prev, wf_object prev -> wf_object (load_more prev)).
Proof.
  split; [|split].
  - unfold wf_object, keys. simpl.
    repeat (constructor; [simpl; intuition discriminate|]). constructor.
  - intros key v prev H. unfold filter_change. now apply wf_set, wf_set.
  - intros prev H. unfold load_more. now apply wf_set.
Qed.

Lemma longer (A : Type) (old page : list A) : old <> [] -> page <> (old ++ page)%list.
Proof.
  intros Hne E. apply (f_equal (@List.length A)) in E.
  rewrite length_app in E. destruct old; [congruence | simpl in E; lia].
Qed.

(** C3.  A successful fetch leaves exactly the response data as the
    tweet list, whatever was displayed before; this holds as well for
    the fetch that follows "load more", whose result is the new page
    alone and not the old list followed by the new page. *)
Theorem fetch_replaces_tweets (w : world server state) :
  (forall r srv,
      serve (list_call (view w)) (remote w) = (Resolved r, srv) ->
      tweets (view (snd (fetchTweets w))) = data r
      /\ (tweets (view w) <> [] ->
          tweets (view (snd (fetchTweets w))) <> (tweets (view w) ++ data r)%list))
  /\ (forall r srv,
      serve (GetTweets (tweets_query (load_more (filters (view w))))) (remote w)
      = (Resolved r, srv) ->
      tweets (view (snd (then_effect handleLoadMore w))) = data r
      /\ (tweets (view w) <> [] ->
          tweets (view (snd (then_effect handleLoadMore w)))
          <> (tweets (view w) ++ data r)%list)).
Proof.
  split; intros r srv Hserve.
  - rewrite fetchTweets_run, Hserve. simpl. split; [reflexivity|].
    apply longer.
  - unfold then_effect, bind. rewrite handleLoadMore_run, fetchTweets_run.
    unfold list_call. simpl. rewrite Hserve. simpl. split; [reflexivity|].
    apply longer.
Qed.

(** C7.  A failed fetch ends normally with the tweet list, the filters
    and the selection as they were and the loading flag cleared, after
    the error notification. *)
Theorem fetch_failure_keeps_state (w : world server state) (e : error) srv :
  serve (list_call (view w)) (remote w) = (Rejected e, srv) ->
  fst (fetchTweets w) = Resolved tt
  /\ view (snd (fetchTweets w))
     = mkState (tweets (view w)) false (filters (view w)) (selectedTweet (view w))
  /\ trace (snd (fetchTweets w))
     = (trace w ++ request_events (list_call (view w))
        ++ [ ConsoleError "API Error:" (LogValue (error_detail e));
             ConsoleError "Error fetching tweets:" (LogError e);
             ToastError "Failed to load tweets" ])%list.
Proof.
  intros Hserve. rewrite fetchTweets_run, Hserve. simpl. auto.
Qed.

(** C4.  Whatever the key and the new value, the filters after a
    filter change have [offset] 0 (and, for a key other than
    [offset], the new value under the key); the fetch that follows
    asks for [/tweets?...] with the tuple [offset=0] and no other
    [offset]. *)
Theorem filter_change_resets_offset (key : string) (v : value) :
  (forall prev,
      get "offset" (filter_change key v prev) = VNumber 0
      /\ (key <> "offset" -> get key (filter_change key v prev) = v))
  /\ (forall w : world server state,
      wf_object (filters (view w)) ->
      let query := tweets_query (filter_change key v (filters (view w))) in
      (exists after,
          trace (snd (then_effect (handleFilterChange key v) w))
          = (trace w
             ++ [ ConsoleLog ("Making GET request to /tweets?" ++ query);
                  Http GET ("/tweets?" ++ query) None ]
             ++ after)%list)
      /\ (forall s, In ("offset", s) (URL.parse query) <-> s = "0")).
Proof.
  split.
  - intros prev. unfold filter_change. split.
    + apply get_set_same.
    + intros Hne. rewrite get_set_other by exact Hne. apply get_set_same.
  - intros w Hwf query. split.
    + unfold then_effect, bind. rewrite handleFilterChange_run, fetchTweets_run.
      unfold list_call. simpl. fold query.
      destruct (serve _ _) as [[r|e] srv]; simpl.
      * exists []. reflexivity.
      * eexists. reflexivity.
    + intros s. unfold query.
      rewrite (query_tuple_set _ "offset" (VNumber 0)).
      * reflexivity.
      * unfold filter_change. now apply wf_set, wf_set.
      * apply in_set.
      * unfold unset. intuition discriminate.
Qed.

(** C5.  "Load more" replaces [offset] by [offset + limit] (the sum of
    the two Numbers) and leaves every other property of the filters,
    the tweet list, the loading flag and the selection as they were. *)
Theorem load_more_adds_limit (prev : object) :
  get "offset" (load_more prev) = add (get "offset" prev) (get "limit" prev)
  /\ (forall offset limit,
      get "offset" prev = VNumber offset -> get "limit" prev = VNumber limit ->
      get "offset" (load_more prev) = VNumber (offset + limit)%float)
  /\ (forall k, k <> "offset" -> get k (load_more prev) = get k prev)
  /\ map (fun k => get k (load_more prev))
         ["query"; "author"; "category"; "sentiment"; "has_media";
          "is_thread"; "min_quality_score"; "limit"]
     = map (fun k => get k prev)
         ["query"; "author"; "category"; "sentiment"; "has_media";
          "is_thread"; "min_quality_score"; "limit"]
  /\ (forall w : world server state,
      filters (view w) = prev ->
      handleLoadMore w
      = (Resolved tt,
         mkWorld (mkState (tweets (view w)) (loading (view w))
                    (load_more prev) (selectedTweet (view w)))
                 (trace w) (remote w))).
Proof.
  unfold load_more. repeat split.
  - apply get_set_same.
  - intros offset limit Ho Hl. rewrite get_set_same, Ho, Hl. reflexivity.
  - intros k Hk. now apply get_set_other.
  - simpl. now rewrite !get_set_other by discriminate.
  - intros w <-. reflexivity.
Qed.

(** C9.  The "load more" control is shown exactly when the tweet list
    is not empty and its length is at least [limit].  With the page
    size 20 of the initial filters it is shown exactly from 20 tweets
    on; with any page size it is shown exactly when the list is not
    empty and holds at least that many tweets (array lengths and page
    sizes below 2^53, which every array length is); with fewer tweets
    than the limit, in particular after a fetch that returned fewer,
    it is not shown. *)
Theorem load_more_shown_iff (st : state) :
  (show_load_more st = true <->
   tweets st <> []
   /\ Number_ge (Number_of_nat (List.length (tweets st)))
        (get "limit" (filters st)) = true)
  /\ (forall limit,
      get "limit" (filters st) = VNumber limit ->
      (Number_of_nat (List.length (tweets st)) <? limit)%float = true ->
      show_load_more st = false)
  /\ (forall (w : world server state) r srv limit,
      view w = st ->
      serve (list_call st) (remote w) = (Resolved r, srv) ->
      get "limit" (filters st) = VNumber limit ->
      (Number_of_nat (List.length (data r)) <? limit)%float = true ->
      show_load_more (view (snd (fetchTweets w))) = false)
  /\ (forall page_size : nat,
      get "limit" (filters st) = VNumber (Number_of_nat page_size) ->
      (Z.of_nat page_size < 2 ^ 53)%Z ->
      (Z.of_nat (List.length (tweets st)) < 2 ^ 53)%Z ->
      show_load_more st
      = ((0 <? List.length (tweets st))%nat
         && (page_size <=? List.length (tweets st))%nat))
  /\ (get "limit" (filters st) = VNumber 20 ->
      (Z.of_nat (List.length (tweets st)) < 2 ^ 53)%Z ->
      (show_load_more st = true <-> 20 <= List.length (tweets st))%nat).
Proof.
  assert (Hsize : forall page_size : nat,
      get "limit" (filters st) = VNumber (Number_of_nat page_size) ->
      (Z.of_nat page_size < 2 ^ 53)%Z ->
      (Z.of_nat (List.length (tweets st)) < 2 ^ 53)%Z ->
      show_load_more st
      = ((0 <? List.length (tweets st))%nat
         && (page_size <=? List.length (tweets st))%nat)).
  { intros page_size Hl Hp Hn. unfold show_load_more, Number_ge. rewrite Hl.
    change (ToNumber (VNumber (Number_of_nat page_size)))
      with (Number_of_nat page_size).
    now rewrite (FloatFacts.leb_of_nat _ _ Hp Hn). }
  split; [|split; [|split; [|split]]].
  - unfold show_load_more. rewrite andb_true_iff. split.
    + intros [Hlen Hge]. split; [|exact Hge].
      destruct (tweets st); [discriminate | discriminate].
    + intros [Hne Hge]. split; [|exact Hge].
      destruct (tweets st); [congruence | reflexivity].
  - intros limit Hl Hlt. unfold show_load_more, Number_ge. rewrite Hl.
    change (ToNumber (VNumber limit)) with limit.
    rewrite (FloatFacts.lt_not_ge _ _ Hlt). apply andb_false_r.
  - intros w r srv limit <- Hserve Hl Hlt.
    rewrite fetchTweets_run, Hserve. unfold show_load_more, Number_ge.
    cbn [snd view tweets filters]. rewrite Hl.
    change (ToNumber (VNumber limit)) with limit.
    rewrite (FloatFacts.lt_not_ge _ _ Hlt). apply andb_false_r.
  - exact Hsize.
  - intros Hl Hn.
    assert (H20 : VNumber 20 = VNumber (Number_of_nat 20)) by reflexivity.
    rewrite H20 in Hl. rewrite (Hsize 20%nat Hl eq_refl Hn).
    rewrite andb_true_iff, Nat.ltb_lt, Nat.leb_le. lia.
Qed.

End WithEnvironment.

(** C3 on a browser that shows one tweet: after the fetch it shows
    the two tweets of the answer. *)
Lemma fetch_replaces_tweets_witness :
  tweets (view (snd (fetchTweets (engine := Scenario.plain_engine)
                       (backend := Scenario.up) Scenario.browsing)))
  = [Scenario.alice; Scenario.bob].
Proof.
  apply (proj1 (fetch_replaces_tweets (engine := Scenario.plain_engine)
                  (backend := Scenario.up) Scenario.browsing)
           (mkResponse [Scenario.alice; Scenario.bob]) false eq_refl).
Defined.

(** C7 on the same browser when the list call times out. *)
Lemma fetch_failure_keeps_state_witness :
  view (snd (fetchTweets (engine := Scenario.plain_engine)
               (backend := Scenario.backend Scenario.tweets_down)
               Scenario.browsing))
  = mkState [Scenario.alice] false initial_filters None.
Proof.
  apply (fetch_failure_keeps_state (engine := Scenario.plain_engine)
           (backend := Scenario.backend Scenario.tweets_down)
           Scenario.browsing Scenario.timeout_error false eq_refl).
Defined.

(** C4 for a change of [sentiment]: on filters that were at offset 40
    the offset is 0 again, and the request that follows from the
    browser carries [offset=0]. *)
Lemma filter_change_resets_offset_witness :
  "sentiment" <> "offset"
  /\ wf_object (filters (view Scenario.browsing))
  /\ get "sentiment"
       (filter_change "sentiment" (VString "positive")
          (set "offset" (VNumber 40) initial_filters))
     = VString "positive"
  /\ get "offset"
       (filter_change "sentiment" (VString "positive")
          (set "offset" (VNumber 40) initial_filters))
     = VNumber 0
  /\ In ("offset", "0")
        (URL.parse
           (tweets_query (engine := Scenario.plain_engine)
              (filter_change "sentiment" (VString "positive")
                 (filters (view Scenario.browsing))))).
Proof.
  assert (Hne : "sentiment" <> "offset") by discriminate.
  assert (Hwf : wf_object (filters (view Scenario.browsing)))
    by (cbn [Scenario.browsing view filters]; unfold initial_filters;
        distinct_keys).
  destruct (filter_change_resets_offset
              (engine := Scenario.plain_engine) (backend := Scenario.up)
              "sentiment" (VString "positive")) as [Hstate Hfetch].
  destruct (Hstate (set "offset" (VNumber 40) initial_filters)) as [H0 Hk].
  destruct (Hfetch Scenario.browsing Hwf) as [_ Hquery].
  split; [exact Hne|]. split; [exact Hwf|].
  split; [exact (Hk Hne)|]. split; [exact H0|].
  apply Hquery. reflexivity.
Defined.

(** C5 on the initial filters: offset 0 and limit 20 give offset 20. *)
Lemma load_more_adds_limit_witness :
  get "offset" (load_more (engine := Scenario.plain_engine) initial_filters)
  = VNumber 20
  /\ get "limit" (load_more (engine := Scenario.plain_engine) initial_filters)
     = VNumber 20.
Proof.
  destruct (load_more_adds_limit (engine := Scenario.plain_engine)
              (backend := Scenario.up) initial_filters)
    as [_ [Hsum [Hother _]]].
  split.
  - exact (Hsum 0%float 20%float eq_refl eq_refl).
  - refine (Hother "limit" _). discriminate.
Defined.

(** C9 under the limit 20: a full page of 20 tweets shows the
    control, a page of two does not. *)
Lemma load_more_shown_iff_witness :
  show_load_more (engine := Scenario.plain_engine)
    (mkState (List.repeat Scenario.alice 20) false initial_filters None)
  = true
  /\ show_load_more (engine := Scenario.plain_engine)
       (mkState [Scenario.alice; Scenario.bob] false initial_filters None)
     = false.
Proof.
  split.
  - refine (proj2 (proj2 (proj2 (proj2 (proj2
              (load_more_shown_iff (engine := Scenario.plain_engine)
                 (backend := Scenario.up)
                 (mkState (List.repeat Scenario.alice 20) false
                    initial_filters None)))))
              eq_refl eq_refl) _).
    apply le_n.
  - refine (proj1 (proj2 (proj2 (proj2
              (load_more_shown_iff (engine := Scenario.plain_engine)
                 (backend := Scenario.up)
                 (mkState [Scenario.alice; Scenario.bob] false
                    initial_filters None)))))
              20%nat eq_refl eq_refl eq_refl).
Defined.

(** C8.  The badge class by score: green from 0.8 on (0.8 included),
    yellow from 0.6 (included) up to but not including 0.8, red below
    0.6; 0.85, 0.65 and 0.3 are green, yellow and red.  The
    comparisons are those of the Number type. *)
Theorem quality_color_thresholds (score : float) :
  ((0.8 <=? score)%float = true -> getQualityColor score = green)
  /\ ((0.6 <=? score)%float = true -> (score <? 0.8)%float = true ->
      getQualityColor score = yellow)
  /\ ((score <? 0.6)%float = true -> getQualityColor score = red)
  /\ getQualityColor 0.8 = green
  /\ getQualityColor 0.6 = yellow
  /\ getQualityColor 0.85 = green
  /\ getQualityColor 0.65 = yellow
  /\ getQualityColor 0.3 = red.
Proof.
  unfold getQualityColor. repeat split.
  - intros H. now rewrite H.
  - intros Hlo Hhi. now rewrite (FloatFacts.lt_not_ge _ _ Hhi), Hlo.
  - intros Hlt.
    rewrite (FloatFacts.lt_le_trans score 0.6 0.8 Hlt eq_refl).
    now rewrite (FloatFacts.lt_not_ge _ _ Hlt).
Qed.

(** The three classes are three different stylings. *)
Lemma colors_distinct : green <> yellow /\ yellow <> red /\ green <> red.
Proof. repeat split; discriminate. Qed.

(** C8 at the score 0.7. *)
Lemma quality_color_thresholds_witness :
  (0.6 <=? 0.7)%float = true /\ (0.7 <? 0.8)%float = true
  /\ getQualityColor 0.7 = yellow.
Proof.
  split; [reflexivity | split; [reflexivity|]].
  apply (proj1 (proj2 (quality_color_thresholds 0.7))); reflexivity.
Defined.

(** A score that is not a number gets the last class. *)
Lemma quality_color_nan : getQualityColor PrimFloat.nan = red.
Proof. reflexivity. Qed.

(** C10.  For a tweet with an analysis group, the card shows of the
    categories the first three and of the key insights the first two,
    in list order (nothing for an empty or missing list); the detail
    overlay shows both lists whole. *)
Theorem card_shows_first_entries (tweet : Tweet.tweet) (a : Tweet.ai_analysis) :
  Tweet.analysis tweet = Some a ->
  exists v,
    shown_analysis (TweetCard tweet) = Some v
    /\ (forall cats, Tweet.categories a = Some cats ->
        shown_categories v
        = match cats with [] => None | _ => Some (firstn 3 cats) end
        /\ List.length (firstn 3 cats) <= 3
        /\ cats = (firstn 3 cats ++ skipn 3 cats)%list)
    /\ (Tweet.categories a = None -> shown_categories v = None)
    /\ (forall ins, Tweet.key_insights a = Some ins ->
        shown_key_insights v
        = match ins with [] => None | _ => Some (firstn 2 ins) end
        /\ List.length (firstn 2 ins) <= 2
        /\ ins = (firstn 2 ins ++ skipn 2 ins)%list)
    /\ (Tweet.key_insights a = None -> shown_key_insights v = None)
    /\ (forall cats ins,
        Tweet.categories a = Some cats -> Tweet.key_insights a = Some ins ->
        exists d,
          Modal_analysis a = Some d
          /\ detail_categories d = JS.join ", " cats
          /\ detail_key_insights d = ins).
Proof.
  intros Ha. unfold TweetCard, Modal_analysis. rewrite Ha.
  eexists. split; [reflexivity|].
  cbn [shown_categories shown_key_insights].
  unfold card_categories, card_key_insights, slice0.
  split; [|split; [|split; [|split]]].
  - intros cats ->. split; [now destruct cats|].
    split; [apply firstn_le_length | now rewrite firstn_skipn].
  - intros ->. reflexivity.
  - intros ins ->. split; [now destruct ins|].
    split; [apply firstn_le_length | now rewrite firstn_skipn].
  - intros ->. reflexivity.
  - intros cats ins -> ->. eexists. split; [reflexivity|]. split; reflexivity.
Qed.

(** C10 on a tweet with four categories and three key insights. *)
Lemma card_shows_first_entries_witness :
  exists v,
    shown_analysis (TweetCard Scenario.bob) = Some v
    /\ shown_categories v = Some ["a"; "b"; "c"]
    /\ shown_key_insights v = Some ["i1"; "i2"]
    /\ exists d,
        Modal_analysis Scenario.bob_analysis = Some d
        /\ detail_categories d = "a, b, c, d"
        /\ detail_key_insights d = ["i1"; "i2"; "i3"].
Proof.
  destruct (card_shows_first_entries Scenario.bob Scenario.bob_analysis eq_refl)
    as [v [Hv [Hc [_ [Hi [_ Hd]]]]]].
  exists v. split; [exact Hv|].
  split; [exact (proj1 (Hc _ eq_refl))|].
  split; [exact (proj1 (Hi _ eq_refl))|].
  exact (Hd _ _ eq_refl eq_refl).
Defined.

End TweetsListFacts.

(* ================================================================== *)
(** * The dashboard                                                    *)
(* ================================================================== *)

Module DashboardFacts.

Import JS Async Api Dashboard Observed Counted Host DashboardView.
Import ApiFacts.

Lemma get_missing (k : string) (o : object) :
  has_key k o = false -> get k o = VUndefined.
Proof.
  induction o as [|[k' v'] o IH]; simpl; [reflexivity|].
  intros H. apply orb_false_elim in H as [E H]. rewrite E. now apply IH.
Qed.

Lemma requests_append (a b : list event) :
  requests (a ++ b) = (requests a ++ requests b)%list.
Proof. unfold requests. apply flat_map_app. Qed.

Lemma requests_error_lines {A : Type} (r : outcome A) :
  requests (error_lines r) = [].
Proof. now destruct r. Qed.

Section WithEnvironment.
Context {engine : Engine} {backend : Backend}.

(** One run of the awaited part of the dashboard fetch, by the four
    answers. *)
Lemma store_answers_run (w : world server state)
    (ra rs rse rc : outcome (response value)) (s1 s2 s3 s4 : server) :
  serve GetAnalytics (remote w) = (ra, s1) ->
  serve GetSchedulerStatus s1 = (rs, s2) ->
  serve (GetSessions (VNumber 5)) s2 = (rse, s3) ->
  serve GetConfig s3 = (rc, s4) ->
  store_answers w
  = (Resolved tt,
     mkWorld
       (mkState (data_or ra (VObject [])) (data_or rs (VObject []))
                (data_or rse (VArray [])) (loading (view w))
                (data_or rc (VObject [])))
       (trace w ++ dashboard_announced ++ dashboard_sent
        ++ error_lines ra ++ error_lines rs ++ error_lines rse
        ++ error_lines rc)
       s4).
Proof.
  intros Ha Hs Hse Hc.
  assert (Hl : dashboard_announced
               = map (fun c => ConsoleLog ("Making " ++ method_name (method_of c)
                                           ++ " request to " ++ url_of c))
                     [GetAnalytics; GetSchedulerStatus; GetSessions (VNumber 5);
                      GetConfig]) by reflexivity.
  assert (Hh : dashboard_sent
               = map (fun c => Http (method_of c) (url_of c) (body_of c))
                     [GetAnalytics; GetSchedulerStatus; GetSessions (VNumber 5);
                      GetConfig]) by reflexivity.
  rewrite Hl, Hh. clear Hl Hh. cbn [map].
  unfold store_answers, Promise_all4, or_data, catch.
  cbn [announce dispatch started].
  change (sessions_call (VNumber 5)) with (GetSessions (VNumber 5)).
  unfold bind, emit, ret. cbn [view trace remote].
  rewrite Ha. cbn [view trace remote].
  rewrite Hs. cbn [view trace remote].
  rewrite Hse. cbn [view trace remote].
  rewrite Hc. cbn [view trace remote].
  unfold arrive4, try_catch, arrived, bind, emit, ret, throw.
  unfold setAnalytics, setSchedulerStatus, setSessions, setConfig, update, bind.
  repeat match goal with
  | |- context [ConsoleLog ?x] => is_var x; fail 1
  | |- context [ConsoleLog ?x] => let l := fresh "line" in set (l := ConsoleLog x)
  | |- context [Http ?m ?u ?b] => let h := fresh "sent" in set (h := Http m u b)
  end.
  destruct ra as [[xa]|ea], rs as [[xs]|es], rse as [[xse]|ese], rc as [[xc]|ec];
    cbn [view trace remote data data_or error_lines with_analytics
         with_schedulerStatus with_sessions with_config analytics
         schedulerStatus sessions loading config];
    rewrite <- ?app_assoc; reflexivity.
Qed.

(** The part of the fetch that is left in flight, run to its end. *)
Lemma fetchDashboardData_in_flight_run (w : world server state)
    (ra rs rse rc : outcome (response value)) (s1 s2 s3 s4 : server) :
  serve GetAnalytics (remote w) = (ra, s1) ->
  serve GetSchedulerStatus s1 = (rs, s2) ->
  serve (GetSessions (VNumber 5)) s2 = (rse, s3) ->
  serve GetConfig s3 = (rc, s4) ->
  fetchDashboardData_in_flight w
  = (Resolved tt,
     mkWorld
       (mkState (data_or ra (VObject [])) (data_or rs (VObject []))
                (data_or rse (VArray [])) false (data_or rc (VObject [])))
       (trace w ++ dashboard_announced ++ dashboard_sent
        ++ error_lines ra ++ error_lines rs ++ error_lines rse
        ++ error_lines rc)
       s4).
Proof.
  intros Ha Hs Hse Hc. unfold fetchDashboardData_in_flight, finally, try_catch.
  rewrite (store_answers_run w ra rs rse rc s1 s2 s3 s4 Ha Hs Hse Hc).
  reflexivity.
Qed.

(** Awaited, the fetch is its first statement followed by the part
    that a call without [await] leaves in flight. *)
Lemma fetchDashboardData_split (w : world server state) :
  fetchDashboardData w
  = fetchDashboardData_in_flight
      (mkWorld (with_loading true (view w)) (trace w) (remote w)).
Proof. reflexivity. Qed.

(** One run of [fetchDashboardData], by the four answers. *)
Lemma fetchDashboardData_run (w : world server state)
    (ra rs rse rc : outcome (response value)) (s1 s2 s3 s4 : server) :
  serve GetAnalytics (remote w) = (ra, s1) ->
  serve GetSchedulerStatus s1 = (rs, s2) ->
  serve (GetSessions (VNumber 5)) s2 = (rse, s3) ->
  serve GetConfig s3 = (rc, s4) ->
  fetchDashboardData w
  = (Resolved tt,
     mkWorld
       (mkState (data_or ra (VObject [])) (data_or rs (VObject []))
                (data_or rse (VArray [])) false (data_or rc (VObject [])))
       (trace w ++ dashboard_announced ++ dashboard_sent
        ++ error_lines ra ++ error_lines rs ++ error_lines rse
        ++ error_lines rc)
       s4).
Proof.
  intros Ha Hs Hse Hc. rewrite fetchDashboardData_split.
  now rewrite (fetchDashboardData_in_flight_run _ ra rs rse rc s1 s2 s3 s4).
Qed.

(** How the toggle reads the status. *)
Lemma scheduler_running_cases (st : state) :
  (forall b, opt_get (schedulerStatus st) "running" = VBool b ->
             scheduler_running st = b)
  /\ (schedulerStatus st = VNull -> scheduler_running st = false)
  /\ (forall o, schedulerStatus st = VObject o -> has_key "running" o = false ->
                scheduler_running st = false).
Proof.
  unfold scheduler_running. repeat split.
  - intros b ->. reflexivity.
  - intros ->. reflexivity.
  - intros o -> H. simpl. now rewrite (get_missing _ _ H).
Qed.

Section WithLibrary.
Context {library : Library}.

(** The scheduler card and the toggle button of the page are those of
    the state. *)
Lemma page_scheduler_of (st : state) (p : page) :
  render_page st = Some (PageScreen p) ->
  loading st = false
  /\ page_scheduler p = scheduler_card st
  /\ page_toggle p = toggle_label st.
Proof.
  unfold render_page. destruct (loading st); [discriminate|].
  destruct (total_tweets_text _); [|discriminate].
  destruct (sessions_section _); [|discriminate].
  destruct (sentiment_section _); [|discriminate].
  destruct (top_categories_section _); [|discriminate].
  destruct (config_section _); [|discriminate].
  intros H. inversion H. auto.
Qed.

(** C2, as the code has it.  Whatever the four calls answer, the
    fetch ends normally without entering its error branch: it logs
    the four requests, sends the four GETs, prints one line for each
    call that failed and nothing else; each piece of state is the
    data of its answer, or its empty default ([{}], [{}], [[]],
    [{}]) when its call failed, and the loading flag is cleared, so
    the page is not the spinner.  On the page that is then rendered,
    the scheduler card reads "Stopped" (with the "Start Scheduler"
    button) when the scheduler-status call is the one that failed;
    when it was answered, the card reads what the answer reports. *)
Theorem dashboard_isolates_failures (w : world server state)
    (ra rs rse rc : outcome (response value)) (s1 s2 s3 s4 : server) :
  serve GetAnalytics (remote w) = (ra, s1) ->
  serve GetSchedulerStatus s1 = (rs, s2) ->
  serve (GetSessions (VNumber 5)) s2 = (rse, s3) ->
  serve GetConfig s3 = (rc, s4) ->
  let after := snd (fetchDashboardData w) in
  fst (fetchDashboardData w) = Resolved tt
  /\ view after
     = mkState (data_or ra (VObject [])) (data_or rs (VObject []))
               (data_or rse (VArray [])) false (data_or rc (VObject []))
  /\ (exists errors,
        trace after
        = (trace w ++ dashboard_announced ++ dashboard_sent ++ errors)%list
        /\ Permutation errors
             (error_lines ra ++ error_lines rs ++ error_lines rse
              ++ error_lines rc))
  /\ requests (trace after) = (requests (trace w) ++ dashboard_requests)%list
  /\ render_page (view after) <> Some LoadingScreen
  /\ (forall p, render_page (view after) = Some (PageScreen p) ->
      (forall e, rs = Rejected e ->
                 page_scheduler p = "Stopped"
                 /\ page_toggle p = "Start Scheduler")
      /\ (forall r, rs = Resolved r ->
                    page_scheduler p
                    = if truthy (opt_get (data r) "running")
                      then "Running" else "Stopped")).
Proof.
  intros Ha Hs Hse Hc after. subst after.
  rewrite (fetchDashboardData_run w ra rs rse rc s1 s2 s3 s4 Ha Hs Hse Hc).
  cbn [fst snd view trace].
  split; [reflexivity|]. split; [reflexivity|].
  split; [eexists; split; [reflexivity | apply Permutation_refl]|].
  split.
  { rewrite !requests_append, !requests_error_lines. cbn.
    rewrite ?app_nil_r. reflexivity. }
  split.
  { unfold render_page. cbn [loading].
    destruct (total_tweets_text _); [|discriminate].
    destruct (sessions_section _); [|discriminate].
    destruct (sentiment_section _); [|discriminate].
    destruct (top_categories_section _); [|discriminate].
    destruct (config_section _); discriminate. }
  intros p Hp. apply page_scheduler_of in Hp as [_ [Hcard Htoggle]].
  rewrite Hcard, Htoggle. split.
  - intros e ->. split; reflexivity.
  - intros r ->. unfold scheduler_card, scheduler_running.
    cbn [schedulerStatus data_or]. reflexivity.
Qed.

End WithLibrary.

(** C6, as the code has it.  The toggle calls the stop endpoint when
    the status has [running: true] and the start endpoint when it has
    [running: false], no [running], or is absent.  When the call
    succeeds it notifies success and at once starts the dashboard
    fetch without awaiting it: the handler settles with the loading
    flag set and the rest of the fetch in flight, and that rest sends
    the four GETs of the dashboard.  When the call fails it notifies
    the failure and starts no fetch. *)
Theorem toggle_calls_then_refetches (w : world server state) :
  ((forall b, opt_get (schedulerStatus (view w)) "running" = VBool b ->
               toggle_call (view w)
               = if b then StopScheduler else StartScheduler)
   /\ (schedulerStatus (view w) = VNull -> toggle_call (view w) = StartScheduler)
   /\ (forall o, schedulerStatus (view w) = VObject o ->
                 has_key "running" o = false ->
                 toggle_call (view w) = StartScheduler))
  /\ (forall r srv,
      serve (toggle_call (view w)) (remote w) = (Resolved r, srv) ->
      let settled :=
        mkWorld (with_loading true (view w))
          (trace w ++ request_events (toggle_call (view w))
           ++ [ToastSuccess (toggle_done (view w))])
          srv in
      handleToggleScheduler w
      = (Resolved (Some fetchDashboardData_in_flight), settled)
      /\ fetchDashboardData_in_flight settled
         = fetchDashboardData (mkWorld (view w) (trace settled) srv)
      /\ requests (trace (snd (fetchDashboardData_in_flight settled)))
         = (requests (trace w)
            ++ [(POST,
                 if scheduler_running (view w)
                 then "/scheduler/stop" else "/scheduler/start",
                 None)]
            ++ dashboard_requests)%list)
  /\ (forall e srv,
      serve (toggle_call (view w)) (remote w) = (Rejected e, srv) ->
      handleToggleScheduler w
      = (Resolved None,
         mkWorld (view w)
           (trace w ++ request_events (toggle_call (view w))
            ++ [ ConsoleError "API Error:" (LogValue (error_detail e));
                 ConsoleError "Error toggling scheduler:" (LogError e);
                 ToastError "Failed to toggle scheduler" ])
           srv)).
Proof.
  split; [|split].
  - destruct (scheduler_running_cases (view w)) as [Hb [Hnull Hmiss]].
    unfold toggle_call. repeat split.
    + intros b H. rewrite (Hb b H). reflexivity.
    + intros H. now rewrite (Hnull H).
    + intros o Ho H. now rewrite (Hmiss o Ho H).
  - intros r srv Hserve settled. split; [|split].
    + unfold handleToggleScheduler, bind, read, try_catch.
      unfold fetchDashboardData_unawaited, unawaited, bind, ret.
      unfold toggle_call, toggle_done in *. subst settled.
      unfold stopScheduler, startScheduler.
      destruct (scheduler_running (view w)).
      * rewrite request_run, Hserve. unfold emit, setLoading, update.
        cbn [view trace remote]. now rewrite <- app_assoc.
      * rewrite request_run, Hserve. unfold emit, setLoading, update.
        cbn [view trace remote]. now rewrite <- app_assoc.
    + reflexivity.
    + destruct (serve GetAnalytics srv) as [ra s1] eqn:Ha.
      destruct (serve GetSchedulerStatus s1) as [rs s2] eqn:Hs.
      destruct (serve (GetSessions (VNumber 5)) s2) as [rse s3] eqn:Hse.
      destruct (serve GetConfig s3) as [rc s4] eqn:Hc.
      rewrite (fetchDashboardData_in_flight_run settled ra rs rse rc
                 s1 s2 s3 s4 Ha Hs Hse Hc).
      subst settled. cbn [snd trace].
      rewrite !requests_append, !requests_error_lines.
      unfold toggle_call. destruct (scheduler_running (view w));
        cbn; rewrite ?app_nil_r, <- ?app_assoc; reflexivity.
  - intros e srv Hserve.
    unfold handleToggleScheduler, bind, read, try_catch.
    unfold toggle_call in *. unfold stopScheduler, startScheduler.
    destruct (scheduler_running (view w)).
    + rewrite request_run, Hserve. unfold emit, ret. cbn [view trace remote].
      now rewrite <- !app_assoc.
    + rewrite request_run, Hserve. unfold emit, ret. cbn [view trace remote].
      now rewrite <- !app_assoc.
Qed.

End WithEnvironment.

(** C2 as stated fails when the failing call is not the status call:
    with analytics down and the scheduler running, exactly one call
    fails, the page renders, and its scheduler card reads "Running",
    not "Stopped". *)
Lemma single_failure_scheduler_running :
  fst (serve (Backend := Scenario.backend Scenario.analytics_down)
         GetAnalytics true)
  = Rejected Scenario.timeout_error
  /\ fst (serve (Backend := Scenario.backend Scenario.analytics_down)
            GetSchedulerStatus true)
     = Resolved (mkResponse (VObject [("running", VBool true)]))
  /\ (exists r, fst (serve (Backend := Scenario.backend Scenario.analytics_down)
                       (GetSessions (VNumber 5)) true) = Resolved r)
  /\ (exists r, fst (serve (Backend := Scenario.backend Scenario.analytics_down)
                       GetConfig true) = Resolved r)
  /\ render_page (engine := Scenario.plain_engine)
       (library := ScenarioLibrary.plain_library)
       (view (snd (fetchDashboardData (engine := Scenario.plain_engine)
                     (backend := Scenario.backend Scenario.analytics_down)
                     Scenario.mounted)))
     = Some (PageScreen
               (mkPage "Stop Scheduler" (VNumber 0) "0%" "0%" "Running"
                  (SessionRows
                     [mkSessionRow (VNumber 7) (VNumber 12) "3 minutes ago"
                        "bg-green-100 text-green-800" (VString "completed")])
                  NoSentiment (Placed VUndefined)
                  (Element (mkConfigFields VUndefined VUndefined (VNumber 50)))))
  /\ "Running" <> "Stopped".
Proof.
  split; [reflexivity|]. split; [reflexivity|].
  split; [eexists; reflexivity|]. split; [eexists; reflexivity|].
  split; [reflexivity | discriminate].
Qed.

(** C2 when the status call is the one that times out: the page
    renders and its scheduler card reads "Stopped". *)
Lemma dashboard_isolates_failures_witness :
  view (snd (fetchDashboardData (engine := Scenario.plain_engine)
               (backend := Scenario.backend Scenario.status_down)
               Scenario.mounted))
  = mkState (VObject [("total_tweets", VNumber 2)]) (VObject [])
            (data (Scenario.answer (GetSessions (VNumber 5)) true)) false
            (VObject [("batch_size", VNumber 50)])
  /\ render_page (engine := Scenario.plain_engine)
       (library := ScenarioLibrary.plain_library)
       (view (snd (fetchDashboardData (engine := Scenario.plain_engine)
                     (backend := Scenario.backend Scenario.status_down)
                     Scenario.mounted)))
     = Some (PageScreen ScenarioLibrary.stopped_page)
  /\ page_scheduler ScenarioLibrary.stopped_page = "Stopped"
  /\ page_toggle ScenarioLibrary.stopped_page = "Start Scheduler".
Proof.
  destruct (dashboard_isolates_failures (engine := Scenario.plain_engine)
              (backend := Scenario.backend Scenario.status_down)
              (library := ScenarioLibrary.plain_library)
              Scenario.mounted
              (Resolved (mkResponse (VObject [("total_tweets", VNumber 2)])))
              (Rejected Scenario.timeout_error)
              (Resolved (Scenario.answer (GetSessions (VNumber 5)) true))
              (Resolved (mkResponse (VObject [("batch_size", VNumber 50)])))
              true true true true eq_refl eq_refl eq_refl eq_refl)
    as [_ [Hview [_ [_ [_ Hpage]]]]].
  assert (Hrender :
    render_page (engine := Scenario.plain_engine)
      (library := ScenarioLibrary.plain_library)
      (view (snd (fetchDashboardData (engine := Scenario.plain_engine)
                    (backend := Scenario.backend Scenario.status_down)
                    Scenario.mounted)))
    = Some (PageScreen ScenarioLibrary.stopped_page)) by reflexivity.
  split; [exact Hview|]. split; [exact Hrender|].
  exact (proj1 (Hpage _ Hrender) _ eq_refl).
Defined.

(** C6 as stated fails when the endpoint call fails: with the
    scheduler reported running and the stop call timing out, the
    toggle calls stop, reports the failure, leaves nothing in flight
    and sends no request for dashboard data. *)
Lemma toggle_failure_no_refetch :
  schedulerStatus (view Scenario.watching) = VObject [("running", VBool true)]
  /\ handleToggleScheduler (engine := Scenario.plain_engine)
       (backend := Scenario.backend Scenario.stop_down) Scenario.watching
     = (Resolved None,
        mkWorld Scenario.running_view
          [ ConsoleLog "Making POST request to /scheduler/stop";
            Http POST "/scheduler/stop" None;
            ConsoleError "API Error:"
              (LogValue (VString "timeout of 30000ms exceeded"));
            ConsoleError "Error toggling scheduler:"
              (LogError Scenario.timeout_error);
            ToastError "Failed to toggle scheduler" ]
          true)
  /\ requests
       (trace (snd (handleToggleScheduler (engine := Scenario.plain_engine)
                      (backend := Scenario.backend Scenario.stop_down)
                      Scenario.watching)))
     = [(POST, "/scheduler/stop", None)].
Proof. split; [reflexivity | split; reflexivity]. Qed.

(** C6 when the stop call gets through: the handler settles with the
    fetch in flight, and the fetch then asks for the four datasets. *)
Lemma toggle_calls_then_refetches_witness :
  handleToggleScheduler (engine := Scenario.plain_engine)
    (backend := Scenario.up) Scenario.watching
  = (Resolved (Some (fetchDashboardData_in_flight
                       (engine := Scenario.plain_engine)
                       (backend := Scenario.up))),
     ScenarioLibrary.toggled)
  /\ requests
       (trace (snd (fetchDashboardData_in_flight
                      (engine := Scenario.plain_engine)
                      (backend := Scenario.up) ScenarioLibrary.toggled)))
     = [ (POST, "/scheduler/stop", None);
         (GET, "/analytics", None);
         (GET, "/scheduler/status", None);
         (GET, "/scraper/sessions?limit=5", None);
         (GET, "/config", None) ].
Proof.
  destruct (proj1 (proj2 (toggle_calls_then_refetches
                            (engine := Scenario.plain_engine)
                            (backend := Scenario.up) Scenario.watching))
              (mkResponse (VObject [])) false eq_refl)
    as [Hsettled [_ Hrequests]].
  split; [exact Hsettled | exact Hrequests].
Defined.

End DashboardFacts.

(* ================================================================== *)
(** * Runs on concrete inputs                                          *)
(* ================================================================== *)

Module Examples.

Import JS Async Api.

#[local] Existing Instance Scenario.plain_engine.

Example number_strings :
  map NumberToString [0; (-0); 20; 40; (-1234567); 9007199254740991]%float
  = ["0"; "0"; "20"; "40"; "-1234567"; "9007199254740991"]
  /\ NumberToString PrimFloat.nan = "NaN"
  /\ NumberToString PrimFloat.infinity = "Infinity".
Proof. repeat split. Qed.

Example value_strings :
  map ToString
    [ VBool false; VNull; VString "a b";
      VArray [VNumber 1; VNull; VArray [VString "x"; VNumber 2]];
      VObject [("k", VNumber 1)] ]
  = ["false"; "null"; "a b"; "1,,x,2"; "[object Object]"].
Proof. reflexivity. Qed.

Example additions :
  add (VNumber 20) (VNumber 20) = VNumber 40
  /\ add (VString "20") (VNumber 20) = VString "2020"
  /\ add VNull (VNumber 20) = VNumber 20.
Proof. repeat split. Qed.

Example urlencode_bytes :
  URL.urlencode "a b&c=d/é~*" = "a+b%26c%3Dd%2F%C3%A9%7E*".
Proof. reflexivity. Qed.

Example serialize_tuples :
  URL.serialize [("q", "x y"); ("", ""); ("a&", "=")] = "q=x+y&=&a%26=%3D".
Proof. reflexivity. Qed.

Example parse_text :
  URL.parse "q=x+y&=&a%26=%3D&&z"
  = [("q", "x y"); ("", ""); ("a&", "="); ("z", "")].
Proof. reflexivity. Qed.

(** The initial filters send only [limit] and [offset]; [false] and
    [0] are sent, being neither [undefined], [null] nor ['']. *)
Example initial_query :
  tweets_query TweetsList.initial_filters = "limit=20&offset=0"
  /\ tweets_query
       (set "has_media" (VBool false)
          (set "author" (VString "bob smith") TweetsList.initial_filters))
     = "author=bob+smith&has_media=false&limit=20&offset=0".
Proof. split; reflexivity. Qed.

Example session_urls :
  url_of (GetSessions (VNumber 5)) = "/scraper/sessions?limit=5"
  /\ url_of (GetTweet (VString "abc")) = "/tweets/abc".
Proof. split; reflexivity. Qed.

(** A whole fetch of the browser, then "load more" and its fetch. *)
Example browse_and_load_more :
  TweetsList.fetchTweets (backend := Scenario.up) Scenario.browsing
  = (Resolved tt,
     mkWorld
       (TweetsList.mkState [Scenario.alice; Scenario.bob] false
          TweetsList.initial_filters None)
       [ ConsoleLog "Making GET request to /tweets?limit=20&offset=0";
         Http GET "/tweets?limit=20&offset=0" None ]
       false)
  /\ trace (snd (TweetsList.then_effect (backend := Scenario.up)
                   TweetsList.handleLoadMore Scenario.browsing))
     = [ ConsoleLog "Making GET request to /tweets?limit=20&offset=20";
         Http GET "/tweets?limit=20&offset=20" None ].
Proof. split; reflexivity. Qed.

(** The card of a tweet without media, thread or analysis, and of one
    with all of them. *)
Example cards :
  TweetsList.TweetCard Scenario.alice
  = TweetsList.mkCard "alice" "hello" None [] None
  /\ TweetsList.TweetCard Scenario.bob
     = TweetsList.mkCard "bob" "thread on proofs" (Some "https://x.example/2")
         ["Media"; "Thread"]
         (Some (TweetsList.mkAnalysisView "positive" TweetsList.green
                  (Some "proofs") (Some ["a"; "b"; "c"]) (Some ["i1"; "i2"]))).
Proof. split; reflexivity. Qed.

(** Twenty tweets under the limit 20 show the control, nineteen and
    none do not. *)
Example load_more_control :
  map (fun n => TweetsList.show_load_more
                  (TweetsList.mkState (repeat Scenario.alice n) false
                     TweetsList.initial_filters None))
      [0; 19; 20; 21]
  = [false; false; true; true].
Proof. reflexivity. Qed.

(** The first fetch of the dashboard with every call answered: the
    four requests are logged, then sent. *)
Example dashboard_mount :
  Dashboard.fetchDashboardData (backend := Scenario.up) Scenario.mounted
  = (Resolved tt,
     mkWorld
       (Dashboard.mkState
          (VObject [("total_tweets", VNumber 2)])
          (VObject [("running", VBool true)])
          (VArray [VObject [("id", VNumber 7);
                            ("tweets_processed", VNumber 12);
                            ("started_at", VString "2024-01-01T10:00:00Z");
                            ("status", VString "completed")]])
          false
          (VObject [("batch_size", VNumber 50)]))
       [ ConsoleLog "Making GET request to /analytics";
         ConsoleLog "Making GET request to /scheduler/status";
         ConsoleLog "Making GET request to /scraper/sessions?limit=5";
         ConsoleLog "Making GET request to /config";
         Http GET "/analytics" None;
         Http GET "/scheduler/status" None;
         Http GET "/scraper/sessions?limit=5" None;
         Http GET "/config" None ]
       true).
Proof. reflexivity. Qed.

(** The same fetch with the analytics and the configuration down:
    the two error lines come after the four requests. *)
Example dashboard_mount_two_down :
  trace (snd (Dashboard.fetchDashboardData
                (backend := Scenario.backend
                   (fun c => match c with
                             | GetAnalytics | GetConfig => true
                             | _ => false
                             end))
                Scenario.mounted))
  = [ ConsoleLog "Making GET request to /analytics";
      ConsoleLog "Making GET request to /scheduler/status";
      ConsoleLog "Making GET request to /scraper/sessions?limit=5";
      ConsoleLog "Making GET request to /config";
      Http GET "/analytics" None;
      Http GET "/scheduler/status" None;
      Http GET "/scraper/sessions?limit=5" None;
      Http GET "/config" None;
      ConsoleError "API Error:" (LogValue (VString "timeout of 30000ms exceeded"));
      ConsoleError "API Error:" (LogValue (VString "timeout of 30000ms exceeded")) ].
Proof. reflexivity. Qed.

(** Stopping a running scheduler: the server stops it, the handler
    settles with the spinner on, and the fetch left in flight then
    shows the scheduler stopped. *)
Example toggle_stops :
  Dashboard.handleToggleScheduler (backend := Scenario.up) Scenario.watching
  = (Resolved (Some (Dashboard.fetchDashboardData_in_flight
                       (backend := Scenario.up))),
     ScenarioLibrary.toggled)
  /\ DashboardView.render_page (library := ScenarioLibrary.plain_library)
       (view ScenarioLibrary.toggled)
     = Some DashboardView.LoadingScreen
  /\ DashboardView.render_page (library := ScenarioLibrary.plain_library)
       (view (snd (Dashboard.fetchDashboardData_in_flight
                     (backend := Scenario.up) ScenarioLibrary.toggled)))
     = Some (DashboardView.PageScreen ScenarioLibrary.stopped_page).
Proof. repeat split. Qed.

End Examples.

(* ================================================================== *)
(** * The facade, further properties                                   *)
(* ================================================================== *)

Module FacadeFacts.

Import JS Async Api Observed Counted Host.
Import URLFacts ApiFacts.

Lemma serialize_empty (qp : URL.URLSearchParams) :
  URL.serialize qp = "" <-> qp = [].
Proof.
  split; [|intros ->; reflexivity].
  destruct qp as [|p qp]; [reflexivity|].
  rewrite serialize_cons. intros E. exfalso.
  destruct (pair_text p) eqn:Ep; [now apply (pair_text_nonempty p) | discriminate E].
Qed.

Section WithEngine.
Context {engine : Engine}.

(** X1.  Read back as urlencoded text, the query string of
    [getTweets] is, in the key order of the filter object, one tuple
    (key, string of the value) for each entry whose value is not
    [undefined], [null] or [''], and nothing else: no key or value,
    whatever bytes it holds, adds, removes or changes a tuple. *)
Theorem query_reads_back (params : object) :
  URL.parse (tweets_query params)
  = map (fun e => (fst e, ToString (snd e)))
        (filter (fun e => is_set (snd e)) params).
Proof.
  unfold tweets_query.
  now rewrite parse_serialize, tweets_queryParams_eq.
Qed.

(** X3.  The query string is empty exactly when every value of the
    filter object is [undefined], [null] or ['']; a call without
    argument asks for [/tweets?]. *)
Theorem query_empty_iff (params : object) :
  (tweets_query params = "" <->
   forall key value, In (key, value) params -> unset value)
  /\ url_of (GetTweets (tweets_query [])) = "/tweets?".
Proof.
  split; [|reflexivity].
  unfold tweets_query. rewrite serialize_empty, tweets_queryParams_eq. split.
  - intros E key value Hin. apply is_set_unset.
    destruct (is_set value) eqn:Hset; [|reflexivity]. exfalso.
    assert (H : In (key, ToString value)
                   (map (fun e => (fst e, ToString (snd e)))
                        (filter (fun e => is_set (snd e)) params))).
    { apply in_map_iff. exists (key, value). split; [reflexivity|].
      apply filter_In. now split. }
    rewrite E in H. exact H.
  - intros H.
    assert (F : filter (fun e => is_set (snd e)) params = []).
    { induction params as [|[k v] params IH]; [reflexivity|]. simpl.
      rewrite (proj2 (is_set_unset v) (H k v (or_introl eq_refl))).
      apply IH. intros key value Hin. apply (H key value). now right. }
    now rewrite F.
Qed.

Section WithBackend.
Context {backend : Backend} {S : Type}.

(** One call through the two interceptors. *)
Lemma request_performs (c : api_call) :
  performs (S := S) c (request c) (method_of c) (method_name (method_of c))
    (url_of c) (body_of c).
Proof.
  intros w. rewrite request_run.
  destruct (serve c (remote w)) as [[r|e] srv]; cbn [fst snd trace error_lines].
  - split; [reflexivity|].
    rewrite DashboardFacts.requests_append. reflexivity.
  - split; [reflexivity|].
    rewrite !DashboardFacts.requests_append. reflexivity.
Qed.

(** X4.  Each of the thirteen operations of the facade sends exactly
    one HTTP request, with the method, path and body of its endpoint
    ([getSessions] with the limit 10 when called without one,
    [getTweets] with its query string, [searchTweets] and
    [updateConfig] with their argument as body), and never a second
    one; it leaves the component state alone; it hands the answer of
    the server, or its error, to the caller as it is, after logging
    the request and, for an error, its detail: the body of the error
    response when there is one and it is truthy, the message of the
    error otherwise. *)
Theorem facade_sends_once :
  performs (S := S) RunScraping runScraping POST "POST" "/scraper/run" None
  /\ performs (S := S) (GetSessions (VNumber 10)) (getSessions VUndefined)
       GET "GET" "/scraper/sessions?limit=10" None
  /\ (forall limit, limit <> VUndefined ->
      performs (S := S) (GetSessions limit) (getSessions limit)
        GET "GET" ("/scraper/sessions?limit=" ++ ToString limit) None)
  /\ (forall sessionId,
      performs (S := S) (GetSession sessionId) (getSession sessionId)
        GET "GET" ("/scraper/session/" ++ ToString sessionId) None)
  /\ (forall params,
      performs (S := S) (GetTweets (tweets_query params)) (getTweets (Some params))
        GET "GET" ("/tweets?" ++ tweets_query params) None)
  /\ performs (S := S) (GetTweets "") (getTweets None) GET "GET" "/tweets?" None
  /\ (forall searchParams,
      performs (S := S) (SearchTweets searchParams) (searchTweets searchParams)
        POST "POST" "/tweets/search" (Some searchParams))
  /\ (forall tweetId,
      performs (S := S) (GetTweet tweetId) (getTweet tweetId)
        GET "GET" ("/tweets/" ++ ToString tweetId) None)
  /\ performs (S := S) GetAnalytics getAnalytics GET "GET" "/analytics" None
  /\ performs (S := S) GetConfig getConfig GET "GET" "/config" None
  /\ (forall config,
      performs (S := S) (UpdateConfig config) (updateConfig config)
        POST "POST" "/config" (Some config))
  /\ performs (S := S) StartScheduler startScheduler
       POST "POST" "/scheduler/start" None
  /\ performs (S := S) StopScheduler stopScheduler
       POST "POST" "/scheduler/stop" None
  /\ performs (S := S) GetSchedulerStatus getSchedulerStatus
       GET "GET" "/scheduler/status" None
  /\ performs (S := S) HealthCheck healthCheck GET "GET" "/" None
  /\ (forall (A : Type) (e : error) (d : value),
      response_data e = Some d -> truthy d = true ->
      error_lines (A := A) (Rejected e) = [ConsoleError "API Error:" (LogValue d)])
  /\ (forall (A : Type) (e : error),
      response_data e = None
      \/ (exists d, response_data e = Some d /\ truthy d = false) ->
      error_lines (A := A) (Rejected e)
      = [ConsoleError "API Error:" (LogValue (VString (message e)))])
  /\ (forall (A : Type) (x : A), error_lines (Resolved x) = []).
Proof.
  split; [exact (request_performs RunScraping)|].
  split; [exact (request_performs (GetSessions (VNumber 10)))|].
  split.
  { intros limit Hl. unfold getSessions.
    destruct limit; try congruence; apply request_performs. }
  split; [intros x; exact (request_performs (GetSession x))|].
  split; [intros x; exact (request_performs (GetTweets (tweets_query x)))|].
  split; [exact (request_performs (GetTweets ""))|].
  split; [intros x; exact (request_performs (SearchTweets x))|].
  split; [intros x; exact (request_performs (GetTweet x))|].
  split; [exact (request_performs GetAnalytics)|].
  split; [exact (request_performs GetConfig)|].
  split; [intros x; exact (request_performs (UpdateConfig x))|].
  split; [exact (request_performs StartScheduler)|].
  split; [exact (request_performs StopScheduler)|].
  split; [exact (request_performs GetSchedulerStatus)|].
  split; [exact (request_performs HealthCheck)|].
  split; [|split].
  - intros A e d Hd Ht. unfold error_lines, error_detail. now rewrite Hd, Ht.
  - intros A e [Hn | [d [Hd Ht]]]; unfold error_lines, error_detail.
    + now rewrite Hn.
    + now rewrite Hd, Ht.
  - reflexivity.
Qed.

End WithBackend.

End WithEngine.

(** X3 on filters that are all unset. *)
Lemma query_empty_iff_witness :
  tweets_query (engine := Scenario.plain_engine)
    [("query", VString ""); ("has_media", VNull); ("topic", VUndefined)]
  = "".
Proof.
  apply (proj1 (query_empty_iff (engine := Scenario.plain_engine) _)).
  intros key value [E | [E | [E | []]]]; inversion E; unfold unset; auto.
Defined.

(** X4 when the stop endpoint answers with an error body. *)
Lemma facade_sends_once_witness :
  stopScheduler (engine := Scenario.plain_engine)
    (backend := ScenarioLibrary.refusing) Scenario.watching
  = (Rejected ScenarioLibrary.refusal,
     mkWorld Scenario.running_view
       [ ConsoleLog "Making POST request to /scheduler/stop";
         Http POST "/scheduler/stop" None;
         ConsoleError "API Error:"
           (LogValue (VObject [("detail", VString "scheduler busy")])) ]
       true).
Proof.
  pose proof (facade_sends_once (engine := Scenario.plain_engine)
                (backend := ScenarioLibrary.refusing)
                (S := Dashboard.state)) as H.
  destruct H as (_ & _ & _ & _ & _ & _ & _ & _ & _ & _ & _ & _ & Hstop & _
                 & _ & Hdetail & _).
  rewrite (proj1 (Hstop Scenario.watching)).
  cbn [fst snd serve ScenarioLibrary.refusing].
  rewrite (Hdetail _ ScenarioLibrary.refusal
             (VObject [("detail", VString "scheduler busy")]) eq_refl eq_refl).
  reflexivity.
Defined.

(** X1 on a value that looks like more parameters. *)
Lemma query_reads_back_example :
  tweets_query (engine := Scenario.plain_engine) ScenarioLibrary.tricky_filters
  = "query=a%26offset%3D999&has_media=false&limit=20&offset=0"
  /\ URL.parse (tweets_query (engine := Scenario.plain_engine)
                  ScenarioLibrary.tricky_filters)
     = [("query", "a&offset=999"); ("has_media", "false");
        ("limit", "20"); ("offset", "0")].
Proof. split; reflexivity. Qed.

End FacadeFacts.

(* ================================================================== *)
(** * The tweet browser, further properties                            *)
(* ================================================================== *)

Module BrowserFacts.

Import JS Async Api TweetsList Observed Counted Host TweetsListView.
Import ApiFacts ObjectFacts TweetsListFacts FacadeFacts.

Lemma get_in (k : string) (o : object) :
  has_key k o = true -> In (k, get k o) o.
Proof.
  induction o as [|[k' v'] o IH]; simpl; [discriminate|].
  destruct (String.eqb_spec k k') as [->|Hne]; simpl; [auto|].
  intros H. right. now apply IH.
Qed.

Lemma get_has_key (k : string) (o : object) :
  get k o <> VUndefined -> has_key k o = true.
Proof.
  intros H. destruct (has_key k o) eqn:E; [reflexivity|].
  now rewrite (DashboardFacts.get_missing _ _ E) in H.
Qed.

Lemma has_key_set (k k' : string) (v : value) (o : object) :
  has_key k (set k' v o) = has_key k o || String.eqb k k'.
Proof.
  induction o as [|[k0 v0] o IH]; simpl; [now rewrite orb_false_r|].
  destruct (String.eqb_spec k' k0) as [->|Hne]; simpl.
  - destruct (String.eqb k k0); simpl; [reflexivity | now rewrite orb_false_r].
  - rewrite IH. now rewrite orb_assoc.
Qed.

Section WithEnvironment.
Context {engine : Engine} {backend : Backend}.

(** X5.  From filters with distinct keys and Numbers as [offset] and
    [limit], "load more" is followed by exactly one request, for
    [/tweets?...] with the single [offset] tuple of the sum and the
    single [limit] tuple of the unchanged page size. *)
Theorem load_more_requests_next_page
    (w : world server state) (offset limit : float) :
  wf_object (filters (view w)) ->
  get "offset" (filters (view w)) = VNumber offset ->
  get "limit" (filters (view w)) = VNumber limit ->
  let query := tweets_query (load_more (filters (view w))) in
  requests (trace (snd (then_effect handleLoadMore w)))
  = (requests (trace w) ++ [(GET, ("/tweets?" ++ query)%string, None)])%list
  /\ (forall s, In ("offset", s) (URL.parse query)
                <-> s = NumberToString (offset + limit)%float)
  /\ (forall s, In ("limit", s) (URL.parse query) <-> s = NumberToString limit).
Proof.
  intros Hwf Ho Hl query.
  assert (Hwf' : wf_object (load_more (filters (view w))))
    by (unfold load_more; now apply wf_set).
  split; [|split].
  - unfold then_effect, bind. rewrite handleLoadMore_run, fetchTweets_run.
    unfold list_call. cbn [view trace remote filters with_filters].
    fold query.
    destruct (serve _ _) as [[r|e] srv]; cbn [snd trace];
      rewrite !DashboardFacts.requests_append; cbn; now rewrite ?app_nil_r.
  - intros s. unfold query.
    rewrite (query_tuple_set _ "offset" (VNumber (offset + limit)) Hwf').
    + reflexivity.
    + unfold load_more. rewrite Ho, Hl. apply in_set.
    + unfold unset. intuition discriminate.
  - intros s. unfold query.
    rewrite (query_tuple_set _ "limit" (VNumber limit) Hwf').
    + reflexivity.
    + assert (Hg : get "limit" (load_more (filters (view w))) = VNumber limit).
      { unfold load_more. rewrite get_set_other by discriminate. exact Hl. }
      rewrite <- Hg. apply get_in, get_has_key. rewrite Hg. discriminate.
    + unfold unset. intuition discriminate.
Qed.

(** X6.  Whatever the state, and whether the server answers the list
    request with tweet records or with an error, [fetchTweets] ends
    normally after exactly one request (for the filters it started
    with), with the loading flag cleared and the filters and the
    selection as they were. *)
Theorem fetch_always_settles (w : world server state) :
  fst (fetchTweets w) = Resolved tt
  /\ loading (view (snd (fetchTweets w))) = false
  /\ filters (view (snd (fetchTweets w))) = filters (view w)
  /\ selectedTweet (view (snd (fetchTweets w))) = selectedTweet (view w)
  /\ requests (trace (snd (fetchTweets w)))
     = (requests (trace w)
        ++ [(GET, ("/tweets?" ++ tweets_query (filters (view w)))%string, None)])%list.
Proof.
  rewrite fetchTweets_run. unfold list_call.
  destruct (serve _ _) as [[r|e] srv]; cbn [fst snd view trace];
    (repeat split;
     rewrite !DashboardFacts.requests_append; cbn; now rewrite ?app_nil_r).
Qed.

End WithEnvironment.

Section MediaSelect.
Context {engine : Engine}.

Lemma has_media_after_change (v : value) (prev : object) :
  get "has_media" (filter_change "has_media" v prev) = v
  /\ In ("has_media", v) (filter_change "has_media" v prev).
Proof.
  assert (Hg : get "has_media" (filter_change "has_media" v prev) = v).
  { unfold filter_change. rewrite get_set_other by discriminate.
    apply get_set_same. }
  split; [exact Hg|].
  rewrite <- Hg at 1. apply get_in. unfold filter_change.
  rewrite !has_key_set. simpl. now rewrite orb_true_r.
Qed.

(** X7.  The "Media" select and the filter agree.  After one of its
    three options (['], ['true'], ['false']) is chosen, the select
    displays that option; any other text counts as ['false'].  "All
    Tweets" sends no [has_media] tuple, "With Media" sends
    [has_media=true] and "Text Only" sends [has_media=false]. *)
Theorem media_select_round_trip (prev : object) :
  (forall v, v = "" \/ v = "true" \/ v = "false" ->
             media_select_value
               (filter_change "has_media" (media_select_change v) prev)
             = Some v)
  /\ (forall v, v <> "" -> v <> "true" -> media_select_change v = VBool false)
  /\ (wf_object prev ->
      (forall s, ~ In ("has_media", s)
                   (URL.parse (tweets_query
                      (filter_change "has_media" (media_select_change "") prev))))
      /\ (forall s, In ("has_media", s)
                     (URL.parse (tweets_query
                        (filter_change "has_media" (media_select_change "true") prev)))
                   <-> s = "true")
      /\ (forall s, In ("has_media", s)
                     (URL.parse (tweets_query
                        (filter_change "has_media" (media_select_change "false") prev)))
                   <-> s = "false")).
Proof.
  split; [|split].
  - intros v Hv. unfold media_select_value.
    rewrite (proj1 (has_media_after_change _ prev)).
    destruct Hv as [-> | [-> | ->]]; reflexivity.
  - intros v H1 H2. unfold media_select_change.
    apply String.eqb_neq in H1, H2. now rewrite H1, H2.
  - intros Hwf.
    assert (Hwf' : forall v, wf_object (filter_change "has_media" v prev))
      by (intros v; unfold filter_change; now apply wf_set, wf_set).
    split; [|split]; intros s.
    + apply (query_tuple_unset _ "has_media" VNull (Hwf' _)).
      * apply has_media_after_change.
      * unfold unset. auto.
    + apply (query_tuple_set _ "has_media" (VBool true) (Hwf' _)).
      * apply has_media_after_change.
      * unfold unset. intuition discriminate.
    + apply (query_tuple_set _ "has_media" (VBool false) (Hwf' _)).
      * apply has_media_after_change.
      * unfold unset. intuition discriminate.
Qed.

End MediaSelect.

Section Controls.
Context {engine : Engine} {library : Library}.

Lemma steady_has_key (f : object) (k : string) :
  keys f = keys initial_filters -> In k (keys initial_filters) ->
  has_key k f = true.
Proof. intros Hk Hin. apply has_key_in. now rewrite Hk. Qed.

Lemma steady_filter_change (f : object) (k : string) (v : value) :
  In k ["query"; "author"; "sentiment"; "has_media"; "min_quality_score"] ->
  steady f -> steady (filter_change k v f).
Proof.
  intros Hin [Hkeys [Hlimit [Hcat [Hthread _]]]]. unfold filter_change.
  assert (Hk : has_key k f = true).
  { apply steady_has_key; [exact Hkeys|]. simpl in *. intuition. }
  assert (Hkeys' : keys (set k v f) = keys initial_filters)
    by (rewrite keys_set, Hk; exact Hkeys).
  assert (Ho : has_key "offset" (set k v f) = true)
    by (apply steady_has_key; [exact Hkeys' | simpl; intuition]).
  repeat split.
  - now rewrite keys_set, Ho.
  - rewrite get_set_other by discriminate.
    rewrite get_set_other; [exact Hlimit|].
    simpl in Hin. intuition (subst; discriminate).
  - rewrite get_set_other by discriminate.
    rewrite get_set_other; [exact Hcat|].
    simpl in Hin. intuition (subst; discriminate).
  - rewrite get_set_other by discriminate.
    rewrite get_set_other; [exact Hthread|].
    simpl in Hin. intuition (subst; discriminate).
  - exists 0%float. apply get_set_same.
Qed.

Lemma steady_load_more (f : object) : steady f -> steady (load_more f).
Proof.
  intros [Hkeys [Hlimit [Hcat [Hthread [offset Ho]]]]]. unfold load_more.
  assert (Hk : has_key "offset" f = true)
    by (apply steady_has_key; [exact Hkeys | simpl; intuition]).
  repeat split.
  - now rewrite keys_set, Hk.
  - now rewrite get_set_other by discriminate.
  - now rewrite get_set_other by discriminate.
  - now rewrite get_set_other by discriminate.
  - rewrite get_set_same, Ho, Hlimit. eexists. reflexivity.
Qed.

Lemma steady_control (c : control) (f : object) :
  steady f -> steady (control_update c f).
Proof.
  destruct c; simpl; try (apply steady_filter_change; simpl; tauto).
  apply steady_load_more.
Qed.

Lemma steady_after (cs : list control) (f : object) :
  steady f -> steady (after_controls cs f).
Proof.
  unfold after_controls. revert f.
  induction cs as [|c cs IH]; intros f H; simpl; [exact H|].
  apply IH. now apply steady_control.
Qed.

(** X8.  Whatever the user does with the controls of the page
    (typing a query or an author, picking a sentiment, a media option
    or a quality, clicking "load more", any number of times in any
    order), the filters keep their nine keys in the initial order,
    the page size stays 20, [category] stays [''] and [is_thread]
    stays [null], and [offset] is a Number; so every request of the
    browser carries [limit=20] and never a [category] or [is_thread]
    tuple. *)
Theorem controls_keep_filters_steady (cs : list control) :
  let f := after_controls cs initial_filters in
  keys f = ["query"; "author"; "category"; "sentiment"; "has_media";
            "is_thread"; "min_quality_score"; "limit"; "offset"]
  /\ get "limit" f = VNumber 20
  /\ get "category" f = VString ""
  /\ get "is_thread" f = VNull
  /\ (exists offset, get "offset" f = VNumber offset)
  /\ (forall s, In ("limit", s) (URL.parse (tweets_query f)) <-> s = "20")
  /\ (forall s, ~ In ("category", s) (URL.parse (tweets_query f)))
  /\ (forall s, ~ In ("is_thread", s) (URL.parse (tweets_query f))).
Proof.
  intros f.
  assert (H0 : steady initial_filters).
  { repeat split. exists 0%float. reflexivity. }
  destruct (steady_after cs _ H0) as [Hkeys [Hlimit [Hcat [Hthread Hoff]]]].
  fold f in Hkeys, Hlimit, Hcat, Hthread, Hoff.
  assert (Hwf : wf_object f).
  { unfold wf_object. rewrite Hkeys. simpl.
    repeat (constructor; [simpl; intuition discriminate|]). constructor. }
  assert (Hin : forall k, In k (keys initial_filters) -> In (k, get k f) f).
  { intros k Hk. apply get_in. now apply steady_has_key. }
  split; [exact Hkeys|]. split; [exact Hlimit|]. split; [exact Hcat|].
  split; [exact Hthread|]. split; [exact Hoff|].
  split; [|split]; intros s.
  - apply (query_tuple_set f "limit" (VNumber 20) Hwf).
    + rewrite <- Hlimit. apply Hin. simpl. intuition.
    + unfold unset. intuition discriminate.
  - apply (query_tuple_unset f "category" (VString "") Hwf).
    + rewrite <- Hcat. apply Hin. simpl. intuition.
    + unfold unset. auto.
  - apply (query_tuple_unset f "is_thread" VNull Hwf).
    + rewrite <- Hthread. apply Hin. simpl. intuition.
    + unfold unset. auto.
Qed.

End Controls.

Section Sentiment.
Context {library : Library}.

(** X9.  The sentiment badge ignores the case of ASCII labels: a label
    that is "positive" once its letters are lowered is green,
    "negative" is red, every other label and a missing label are
    gray; two ASCII labels that differ only in case get the same
    class. *)
Theorem sentiment_color_ignores_case :
  getSentimentColor None = gray
  /\ (forall label,
      all_bytes is_ascii label = true ->
      getSentimentColor (Some label)
      = if String.eqb (map_bytes lower_ascii label) "positive" then green
        else if String.eqb (map_bytes lower_ascii label) "negative" then red
        else gray)
  /\ (forall a b,
      all_bytes is_ascii a = true -> all_bytes is_ascii b = true ->
      map_bytes lower_ascii a = map_bytes lower_ascii b ->
      getSentimentColor (Some a) = getSentimentColor (Some b)).
Proof.
  split; [reflexivity|].
  assert (H : forall label, all_bytes is_ascii label = true ->
            getSentimentColor (Some label)
            = if String.eqb (map_bytes lower_ascii label) "positive" then green
              else if String.eqb (map_bytes lower_ascii label) "negative" then red
              else gray).
  { intros label Hl. unfold getSentimentColor, toLowerCase. simpl.
    now rewrite Hl. }
  split; [exact H|].
  intros a b Ha Hb E. now rewrite (H a Ha), (H b Hb), E.
Qed.

End Sentiment.

(** X9 on three spellings. *)
Lemma sentiment_color_ignores_case_witness :
  all_bytes is_ascii "POSITIVE" = true
  /\ getSentimentColor (library := ScenarioLibrary.plain_library) (Some "POSITIVE")
     = green
  /\ getSentimentColor (library := ScenarioLibrary.plain_library) (Some "Negative")
     = red
  /\ getSentimentColor (library := ScenarioLibrary.plain_library) (Some "neutral")
     = gray.
Proof.
  destruct (sentiment_color_ignores_case
              (library := ScenarioLibrary.plain_library)) as [_ [H _]].
  split; [reflexivity|].
  split; [exact (H "POSITIVE" eq_refl)|].
  split; [exact (H "Negative" eq_refl) | exact (H "neutral" eq_refl)].
Defined.

(** X5 on the browser of the examples: the next page starts at 20. *)
Lemma load_more_requests_next_page_witness :
  wf_object (filters (view Scenario.browsing))
  /\ In ("offset", "20")
        (URL.parse (tweets_query (engine := Scenario.plain_engine)
                      (load_more (engine := Scenario.plain_engine)
                         (filters (view Scenario.browsing))))).
Proof.
  assert (Hwf : wf_object (filters (view Scenario.browsing)))
    by (cbn [Scenario.browsing view filters]; unfold initial_filters;
        distinct_keys).
  split; [exact Hwf|].
  destruct (load_more_requests_next_page (engine := Scenario.plain_engine)
              (backend := Scenario.up) Scenario.browsing 0%float 20%float
              Hwf eq_refl eq_refl) as [_ [Hoffset _]].
  apply Hoffset. reflexivity.
Defined.

(** X7 on the initial filters: after "Text Only" the select shows
    ['false'] and the request carries [has_media=false]. *)
Lemma media_select_round_trip_witness :
  wf_object initial_filters
  /\ media_select_value (engine := Scenario.plain_engine)
       (filter_change "has_media" (media_select_change "false") initial_filters)
     = Some "false"
  /\ In ("has_media", "false")
        (URL.parse (tweets_query (engine := Scenario.plain_engine)
                      (filter_change "has_media" (media_select_change "false")
                         initial_filters))).
Proof.
  assert (Hwf : wf_object initial_filters)
    by (unfold initial_filters; distinct_keys).
  destruct (media_select_round_trip (engine := Scenario.plain_engine)
              initial_filters) as [Hshow [_ Hquery]].
  split; [exact Hwf|].
  split; [apply Hshow; auto|].
  apply (proj2 (proj2 (Hquery Hwf))). reflexivity.
Defined.

End BrowserFacts.

(* ================================================================== *)
(** * The dashboard, further properties                                *)
(* ================================================================== *)

Module DashboardPageFacts.

Import JS Async Api Dashboard Observed Counted Host DashboardView.
Import ApiFacts DashboardFacts.

Lemma SF_lt_le (x y : spec_float) : SFltb x y = true -> SFleb x y = true.
Proof.
  unfold SFltb, SFleb. destruct (SFcompare x y) as [[| |]|]; congruence.
Qed.

Lemma lt_le (x y : float) : (x <? y)%float = true -> (x <=? y)%float = true.
Proof. rewrite ltb_spec, leb_spec. apply SF_lt_le. Qed.

(** [Math.min(100, x)], case by case. *)
Lemma Math_min_100 (x : float) :
  Math_min [100%float; x]
  = if PrimFloat.is_nan x then PrimFloat.nan
    else if (x <? 100)%float then x
    else 100%float.
Proof.
  unfold Math_min. cbn [existsb fold_left].
  change (PrimFloat.is_nan 100) with false.
  change (is_neg_zero 100 && is_pos_zero PrimFloat.infinity) with false.
  change (100 <? PrimFloat.infinity)%float with true.
  cbn [orb]. rewrite orb_false_r.
  destruct (PrimFloat.is_nan x); [reflexivity|].
  unfold is_pos_zero. change (PrimFloat.is_zero 100) with false.
  cbn [andb]. now rewrite andb_false_r.
Qed.

Section WithEnvironment.
Context {engine : Engine} {library : Library}.

(** X11.  The width of a sentiment bar is the percentage of the count
    in the total when that is below 100, 100 when it is 100 or more
    (a count above the total, a zero total under a positive count),
    and NaN exactly when the percentage is NaN; so it is never above
    100. *)
Theorem bar_width_bounded (count total : value) :
  let percentage := (ToNumber count / ToNumber total * 100)%float in
  bar_width count total
  = (if PrimFloat.is_nan percentage then PrimFloat.nan
     else if (percentage <? 100)%float then percentage
     else 100%float)
  /\ (PrimFloat.is_nan (bar_width count total) = true
      \/ (bar_width count total <=? 100)%float = true).
Proof.
  intros percentage. unfold bar_width. fold percentage.
  rewrite Math_min_100. split; [reflexivity|].
  destruct (PrimFloat.is_nan percentage) eqn:En; [left; reflexivity|].
  right. destruct (percentage <? 100)%float eqn:El.
  - now apply lt_le.
  - reflexivity.
Qed.

Lemma traverse_none {A B : Type} (f : A -> option B) (l : list A) (x : A) :
  In x l -> f x = None -> traverse f l = None.
Proof.
  induction l as [|y l IH]; simpl; [tauto|].
  intros [->|Hin] Hx.
  - now rewrite Hx.
  - destruct (f y); [|reflexivity]. now rewrite (IH Hin Hx).
Qed.

Lemma traverse_rows (items : list object) (start : nat) :
  forallb fields_shown items = true ->
  traverse category_row_of
    (combine (seq start (List.length items)) (map VObject items))
  = Some (map (fun e => mkCategoryRow (rank_class (fst e)) (fst e + 1)
                          (get "category" (snd e)) (get "count" (snd e)))
              (combine (seq start (List.length items)) items)).
Proof.
  revert start. induction items as [|c items IH]; intros start H;
    [reflexivity|].
  cbn [forallb] in H. apply andb_true_iff in H as [Hc H].
  apply andb_true_iff in Hc as [Hname Hcount].
  cbn [List.length seq map combine traverse category_row_of member].
  unfold child. rewrite Hname, Hcount. now rewrite (IH _ H).
Qed.

Lemma traverse_rows_none (items : list object) (start : nat) :
  forallb fields_shown items = false ->
  traverse category_row_of
    (combine (seq start (List.length items)) (map VObject items))
  = None.
Proof.
  revert start. induction items as [|c items IH]; intros start H;
    [discriminate|].
  cbn [forallb] in H.
  cbn [List.length seq map combine traverse category_row_of member].
  unfold child. unfold fields_shown in H at 1.
  destruct (renderable (get "category" c)); [|reflexivity].
  destruct (renderable (get "count" c)); [|reflexivity].
  cbn [andb] in H. now rewrite (IH _ H).
Qed.

Lemma ranks_of_rows (items : list object) (start : nat) :
  map (fun e : nat * object => fst e + 1)
      (combine (seq start (List.length items)) items)
  = seq (start + 1) (List.length items).
Proof.
  revert start. induction items as [|c items IH]; intros start; simpl;
    [reflexivity|].
  f_equal. apply (IH (Datatypes.S start)).
Qed.

(** X12.  When the analytics snapshot has an array of category
    objects, and the [category] and the [count] of the first six are
    values the page can show (anything but an object), the page
    shows the first six of them in the order of the array (all of
    them when there are fewer, no section when there are none),
    numbered 1, 2, 3, ... with the class of the rank, each with its
    own [category] and [count]; when one of these fields is an
    object, rendering throws. *)
Theorem top_categories_first_six (analytics : object) (items : list object) :
  get "top_categories" analytics = VArray (map VObject items) ->
  let shown :=
    forallb (fun c => renderable (get "category" c)
                      && renderable (get "count" c))
            (firstn 6 items) in
  let rows :=
    map (fun e => mkCategoryRow (rank_class (fst e)) (fst e + 1)
                    (get "category" (snd e)) (get "count" (snd e)))
        (indexed (firstn 6 items)) in
  (shown = true ->
   top_categories_section (VObject analytics)
   = match items with
     | [] => Some (Placed (VBool false))
     | _ => Some (Element rows)
     end)
  /\ (shown = false -> top_categories_section (VObject analytics) = None)
  /\ List.length rows = Nat.min 6 (List.length items)
  /\ map category_rank rows = seq 1 (Nat.min 6 (List.length items))
  /\ map category_class (firstn 3 rows)
     = firstn (List.length items) ["bg-yellow-500"; "bg-gray-400"; "bg-orange-600"].
Proof.
  intros Htop shown rows.
  assert (Hlen : List.length (firstn 6 items) = Nat.min 6 (List.length items))
    by apply length_firstn.
  split; [|split; [|split; [|split]]].
  - intros Hshown. unfold top_categories_section. cbn [opt_get]. rewrite Htop.
    cbn [truthy]. destruct items as [|c items]; [reflexivity|].
    cbn [List.length map Nat.ltb Nat.leb].
    change (VObject c :: map VObject items) with (map VObject (c :: items)).
    rewrite firstn_map. unfold indexed. rewrite length_map.
    now rewrite (traverse_rows _ _ Hshown).
  - intros Hshown. unfold top_categories_section. cbn [opt_get]. rewrite Htop.
    cbn [truthy]. destruct items as [|c items]; [discriminate Hshown|].
    cbn [List.length map Nat.ltb Nat.leb].
    change (VObject c :: map VObject items) with (map VObject (c :: items)).
    rewrite firstn_map. unfold indexed. rewrite length_map.
    now rewrite (traverse_rows_none _ _ Hshown).
  - unfold rows, indexed. rewrite length_map, length_combine, length_seq.
    rewrite Hlen. apply Nat.min_id.
  - unfold rows, indexed. rewrite map_map. cbn [category_rank].
    rewrite ranks_of_rows. now rewrite Hlen.
  - unfold rows, indexed.
    destruct items as [|a [|b [|c [|d items]]]]; reflexivity.
Qed.

Section WithBackend.
Context {backend : Backend}.

(** X13.  When all four calls of the dashboard fetch fail, the page
    still renders, without an exception and without the spinner:
    total 0, both averages "0%", scheduler "Stopped" with the "Start
    Scheduler" button, the "no sessions" and "no sentiment data"
    messages, no top categories, and the configuration section shown
    with its three values undefined (the fallback [{}] counts as
    present). *)
Theorem dashboard_outage_page (w : world server state)
    (ea es ese ec : error) (s1 s2 s3 s4 : server) :
  serve GetAnalytics (remote w) = (Rejected ea, s1) ->
  serve GetSchedulerStatus s1 = (Rejected es, s2) ->
  serve (GetSessions (VNumber 5)) s2 = (Rejected ese, s3) ->
  serve GetConfig s3 = (Rejected ec, s4) ->
  render_page (view (snd (fetchDashboardData w)))
  = Some (PageScreen
            (mkPage "Start Scheduler" (VNumber 0) "0%" "0%" "Stopped"
               NoSessions NoSentiment (Placed VUndefined)
               (Element (mkConfigFields VUndefined VUndefined VUndefined)))).
Proof.
  intros Ha Hs Hse Hc.
  rewrite (fetchDashboardData_run w _ _ _ _ s1 s2 s3 s4 Ha Hs Hse Hc).
  reflexivity.
Qed.


End WithBackend.

End WithEnvironment.

(** X11 on a count above the total, on a zero total and on 0/0. *)
Lemma bar_width_examples :
  bar_width (engine := Scenario.plain_engine) (VNumber 50) (VNumber 40) = 100%float
  /\ bar_width (engine := Scenario.plain_engine) (VNumber 10) (VNumber 40) = 25%float
  /\ bar_width (engine := Scenario.plain_engine) (VNumber 3) (VNumber 0) = 100%float
  /\ PrimFloat.is_nan
       (bar_width (engine := Scenario.plain_engine) (VNumber 0) (VNumber 0)) = true.
Proof. repeat split. Qed.

(** X12 on a snapshot with eight categories: six rows. *)
Lemma top_categories_first_six_witness :
  get "top_categories" ScenarioLibrary.eight_categories
  = VArray (map VObject ScenarioLibrary.category_objects)
  /\ option_map
       (fun shown => match shown with
                     | Element rows => map category_name rows
                     | Placed _ => []
                     end)
       (top_categories_section (engine := Scenario.plain_engine)
          ScenarioLibrary.eight_categories_value)
     = Some [VString "ai"; VString "ml"; VString "web";
             VString "db"; VString "os"; VString "pl"].
Proof.
  split; [reflexivity|].
  unfold ScenarioLibrary.eight_categories_value.
  rewrite (proj1 (top_categories_first_six (engine := Scenario.plain_engine)
                    ScenarioLibrary.eight_categories
                    ScenarioLibrary.category_objects eq_refl) eq_refl).
  reflexivity.
Defined.

(** X13 on the dashboard as it is mounted, with the server down. *)
Lemma dashboard_outage_page_witness :
  option_map
    (fun shown => match shown with
                  | PageScreen p => page_scheduler p
                  | LoadingScreen => "loading"
                  end)
    (render_page (engine := Scenario.plain_engine)
       (library := ScenarioLibrary.plain_library)
       (view (snd (fetchDashboardData (engine := Scenario.plain_engine)
                     (backend := Scenario.backend ScenarioLibrary.all_down)
                     Scenario.mounted))))
  = Some "Stopped".
Proof.
  rewrite (dashboard_outage_page (engine := Scenario.plain_engine)
             (library := ScenarioLibrary.plain_library)
             (backend := Scenario.backend ScenarioLibrary.all_down)
             Scenario.mounted
             Scenario.timeout_error Scenario.timeout_error
             Scenario.timeout_error Scenario.timeout_error
             true true true true eq_refl eq_refl eq_refl eq_refl).
  reflexivity.
Defined.


End DashboardPageFacts.

(* ================================================================== *)
(** * More runs on concrete inputs                                     *)
(* ================================================================== *)

Module PageExamples.

Import JS Async Api Host.

#[local] Existing Instance Scenario.plain_engine.
#[local] Existing Instance ScenarioLibrary.plain_library.

Example lowering :
  toLowerCase "Positive-1" = "positive-1"
  /\ map decimal_of_nat [0; 7; 10] = ["0"; "7"; "10"].
Proof. split; reflexivity. Qed.

Example minima :
  Math_min [100; 25]%float = 25%float
  /\ Math_min [0; (-0)]%float = (-0)%float
  /\ Math_min [] = PrimFloat.infinity.
Proof. repeat split. Qed.

(** The page of the dashboard after its first fetch, every call
    answered. *)
Example dashboard_page :
  DashboardView.render_page
    (view (snd (Dashboard.fetchDashboardData (backend := Scenario.up)
                  Scenario.mounted)))
  = Some (DashboardView.PageScreen
            (DashboardView.mkPage "Stop Scheduler" (VString "2") "0%" "0%"
               "Running"
               (DashboardView.SessionRows
                  [DashboardView.mkSessionRow (VNumber 7) (VNumber 12)
                     "3 minutes ago" "bg-green-100 text-green-800"
                     (VString "completed")])
               DashboardView.NoSentiment
               (Placed VUndefined)
               (Element (DashboardView.mkConfigFields VUndefined VUndefined
                           (VNumber 50))))).
Proof. reflexivity. Qed.

(** Sessions that are not there, and a session that is [null]. *)
Example sessions_edges :
  DashboardView.sessions_section (VArray []) = Some DashboardView.NoSessions
  /\ DashboardView.sessions_section VNull = None
  /\ DashboardView.sessions_section (VArray [VNull]) = None
  /\ DashboardView.sessions_section (VObject []) = Some DashboardView.NoSessions.
Proof. repeat split. Qed.

(** The bars of a distribution whose counts exceed the total. *)
Example sentiment_bars :
  DashboardView.sentiment_section (VObject ScenarioLibrary.eight_categories)
  = Some (DashboardView.Bars
            [ DashboardView.mkSentimentRow "positive" "bg-green-500" "25%"
                (VNumber 10);
              DashboardView.mkSentimentRow "negative" "bg-red-500" "100%"
                (VNumber 50) ]).
Proof. reflexivity. Qed.

(** A zero that is placed in the page instead of the section. *)
Example config_zero :
  DashboardView.config_section (VNumber 0) = Some (Placed (VNumber 0))
  /\ DashboardView.config_section VNull = Some (Placed VNull).
Proof. split; reflexivity. Qed.

(** An object where the page places a value: a session that has no
    date, a count, a category name and a setting that are objects. *)
Example objects_as_children :
  DashboardView.sessions_section (VArray [VObject [("id", VNumber 7)]]) = None
  /\ DashboardView.sentiment_section
       (VObject [("sentiment_distribution",
                  VObject [("positive", VObject [("n", VNumber 1)])])])
     = None
  /\ DashboardView.top_categories_section
       (VObject [("top_categories",
                  VArray [VObject [("category", VObject []);
                                   ("count", VNumber 1)]])])
     = None
  /\ DashboardView.config_section (VObject [("batch_size", VObject [])]) = None
  /\ DashboardView.config_section
       (VObject [("batch_size", VArray [VNumber 1; VNumber 2])])
     = Some (Element (DashboardView.mkConfigFields VUndefined VUndefined
                        (VArray [VNumber 1; VNumber 2]))).
Proof. repeat split. Qed.

End PageExamples.

(* ================================================================== *)
(** * Failures that reach the page                                     *)
(* ================================================================== *)

Module EdgeFacts.

Import JS Async Api Observed Counted Host.
Import ApiFacts TweetsListFacts.

Section Browser.
Context {engine : Engine} {backend : Backend}.

Import TweetsList.

(** X15.  When the fetch that follows a change of the filters fails
    (a filter change or "load more"), the filters keep their new
    value while the tweet list stays the one of the previous fetch:
    after a failed "load more" the page still shows the old tweets
    and the offset has moved on by one page. *)
Theorem failed_refetch_keeps_new_filters
    (g : object -> object) (w : world server state) (e : error) srv :
  serve (GetTweets (tweets_query (g (filters (view w))))) (remote w)
  = (Rejected e, srv) ->
  view (snd (then_effect (setFilters g) w))
  = mkState (tweets (view w)) false (g (filters (view w)))
            (selectedTweet (view w))
  /\ handleLoadMore = setFilters load_more
  /\ (forall key v, handleFilterChange key v = setFilters (filter_change key v)).
Proof.
  intros Hserve. split; [|split; reflexivity].
  unfold then_effect, bind, setFilters, update.
  rewrite fetchTweets_run. unfold list_call.
  cbn [view trace remote filters with_filters].
  now rewrite Hserve.
Qed.

End Browser.

Section Dashboard.
Context {engine : Engine} {library : Library}.

Import Dashboard DashboardView.

(** X14.  The session rows are not guarded: when the page is not
    loading and the sessions are an array, one entry that is [null]
    or [undefined], or whose start time the date library refuses,
    makes the whole render throw. *)
Theorem broken_session_breaks_page
    (st : state) (items : list value) (session : value) :
  loading st = false ->
  sessions st = VArray items ->
  In session items ->
  (session = VNull \/ session = VUndefined
   \/ exists started_at,
        member session "started_at" = Some started_at
        /\ formatDistanceToNow started_at = None) ->
  render_page st = None.
Proof.
  intros Hload Hsessions Hin Hbad.
  assert (Hrow : session_row_of session = None).
  { destruct Hbad as [-> | [-> | [started_at [Hm Hf]]]];
      [reflexivity | reflexivity |].
    unfold session_row_of. rewrite Hm.
    destruct (member session "id"); [|reflexivity].
    destruct (member session "tweets_processed") as [processed|];
      [|reflexivity].
    destruct (member session "status"); [|reflexivity].
    rewrite Hf. now destruct (child processed). }
  unfold render_page. rewrite Hload, Hsessions.
  unfold sessions_section.
  destruct items as [|first items]; [destruct Hin|].
  cbn [List.length Nat.ltb Nat.leb].
  rewrite (DashboardPageFacts.traverse_none _ _ _ Hin Hrow). cbn [option_map].
  now destruct (total_tweets_text (analytics st)).
Qed.

End Dashboard.

(** X15 on the browser of the examples when the list call times out
    after "load more". *)
Lemma failed_refetch_keeps_new_filters_witness :
  view (snd (TweetsList.then_effect (engine := Scenario.plain_engine)
               (backend := Scenario.backend Scenario.tweets_down)
               (TweetsList.setFilters (TweetsList.load_more
                                         (engine := Scenario.plain_engine)))
               Scenario.browsing))
  = TweetsList.mkState [Scenario.alice] false
      (set "offset" (VNumber 20) TweetsList.initial_filters) None.
Proof.
  apply (proj1 (failed_refetch_keeps_new_filters
                  (engine := Scenario.plain_engine)
                  (backend := Scenario.backend Scenario.tweets_down)
                  (TweetsList.load_more (engine := Scenario.plain_engine))
                  Scenario.browsing Scenario.timeout_error false eq_refl)).
Defined.

(** X14 on a session list with a [null] entry. *)
Lemma broken_session_breaks_page_witness :
  DashboardView.render_page (engine := Scenario.plain_engine)
    (library := ScenarioLibrary.plain_library)
    (Dashboard.mkState (VObject []) (VObject [])
       (VArray [VObject [("id", VNumber 7)]; VNull]) false (VObject []))
  = None.
Proof.
  apply (broken_session_breaks_page (engine := Scenario.plain_engine)
           (library := ScenarioLibrary.plain_library)
           (Dashboard.mkState (VObject []) (VObject [])
              (VArray [VObject [("id", VNumber 7)]; VNull]) false (VObject []))
           [VObject [("id", VNumber 7)]; VNull] VNull eq_refl eq_refl).
  - simpl. auto.
  - auto.
Defined.

End EdgeFacts.
